(** * btcd_exporter: the collect-on-scrape bridge, embedded in Rocq

    The repository holds two variants of one program:
    - the basic exporter, which queries [GetInfo] and [GetNetTotals];
    - the extended exporter ([btcd_exporter.go]), which additionally
      queries [GetBestBlockHash] and [GetBlockHeader], and reads a TLS
      certificate at startup.

    The embedding is shallow.  Go values are Rocq values; the remote node,
    the metric channel and the logger are threaded explicitly through a
    [World]; a Go [(ptr, err)] return is a pair of options, [None] being
    [nil]. *)

From Stdlib Require Import ZArith List String Bool Lia.
From Stdlib Require Import Floats.SpecFloat.
Import ListNotations.

Local Open Scope string_scope.
Local Open Scope list_scope.
Local Open Scope Z_scope.

(** ** Go scalars *)

(** Two's complement reduction to [w] bits. *)
Definition wrap_signed (w : Z) (z : Z) : Z :=
  (z + 2 ^ (w - 1)) mod 2 ^ w - 2 ^ (w - 1).

(** The conversion [int(x)].  The release targets are amd64 and arm64, where
    [int] has 64 bits; the argument is an [int32], an [int64] or a [uint64]
    given by its mathematical value. *)
Definition int (x : Z) : Z := wrap_signed 64 x.

(** [float64] is IEEE 754 binary64. *)
Definition float64 : Type := spec_float.

(** The conversion [float64(n)] of an integer: round to nearest, ties to
    even. *)
Definition float64_of_int (n : Z) : float64 :=
  binary_normalize 53 1024 n 0 false.

(** The integer a float denotes, when it denotes one. *)
Definition float64_to_Z (f : float64) : option Z :=
  match f with
  | S754_zero _ => Some 0
  | S754_finite s m e =>
      if 0 <=? e then Some (cond_Zopp s (Zpos m * 2 ^ e))
      else if Zpos m mod 2 ^ (- e) =? 0
           then Some (cond_Zopp s (Zpos m / 2 ^ (- e)))
           else None
  | _ => None
  end.

(** Go's [error] interface, by its message; [nil] is [None] of
    [option error]. *)
Definition error : Type := string.

(** ** The metrics library, as far as the exporter uses it *)

(** [prometheus.BuildFQName]: the non-empty parts joined by underscores; an
    empty [name] gives the empty string. *)
Definition BuildFQName (namespace subsystem name : string) : string :=
  if String.eqb name "" then ""
  else if negb (String.eqb namespace "") && negb (String.eqb subsystem "")
       then namespace ++ "_" ++ subsystem ++ "_" ++ name
  else if negb (String.eqb namespace "") then namespace ++ "_" ++ name
  else if negb (String.eqb subsystem "") then subsystem ++ "_" ++ name
  else name.

(** [*prometheus.Desc], built by [prometheus.NewDesc]; a [nil] label
    argument is the empty list. *)
Record Desc : Type := NewDesc {
  fqName : string;
  help : string;
  variableLabels : list string;
  constLabels : list (string * string)
}.

Inductive ValueType : Type := CounterValue | GaugeValue | UntypedValue.

(** A constant metric, built by [prometheus.MustNewConstMetric desc
    valueType value] without label values.  Every descriptor of the exporter
    has no variable labels, the one case in which the constructor cannot
    panic. *)
Record Metric : Type := MustNewConstMetric {
  desc : Desc;
  valType : ValueType;
  value : float64
}.

(** ** The upstream RPC client *)

(** [chainhash.Hash], 32 bytes. *)
Definition Hash : Type := list Byte.byte.

(** [btcjson.InfoWalletResult]: the fields the exporter reads, [Blocks] and
    [Connections] of type [int32], [Difficulty] of type [float64]. *)
Record InfoWalletResult : Type := {
  Blocks : Z;
  Connections : Z;
  Difficulty : float64
}.

(** [btcjson.GetNetTotalsResult]: both fields are [uint64]. *)
Record GetNetTotalsResult : Type := {
  TotalBytesRecv : Z;
  TotalBytesSent : Z
}.

(** [time.Time], by the value of its method [Unix()], an [int64]. *)
Record Time : Type := { Unix : Z }.

(** [wire.BlockHeader]: the field the exporter reads. *)
Record BlockHeader : Type := { Timestamp : Time }.

(** What a client method returns: a result with a [nil] error, or a non-nil
    error. *)
Inductive Reply (A : Type) : Type :=
| Ok (a : A)
| Failed (err : error).
Arguments Ok {A} a.
Arguments Failed {A} err.

(** [*rpcclient.Client]: a session to one remote node.  [Node] is whatever
    the answers depend on (the remote daemon, the connection, the time);
    every round trip may change it. *)
Record Client (Node : Type) : Type := {
  GetInfo : Node -> Reply InfoWalletResult * Node;
  GetNetTotals : Node -> Reply GetNetTotalsResult * Node;
  GetBestBlockHash : Node -> Reply Hash * Node;
  GetBlockHeader : Hash -> Node -> Reply BlockHeader * Node
}.
Arguments GetInfo {Node} _ _.
Arguments GetNetTotals {Node} _ _.
Arguments GetBestBlockHash {Node} _ _.
Arguments GetBlockHeader {Node} _ _ _.

(** ** The world of one scrape *)

Inductive Call : Type :=
| CallGetInfo
| CallGetNetTotals
| CallGetBestBlockHash
| CallGetBlockHeader (hash : Hash).

(** What a scrape does to its surroundings, in the order it does it. *)
Inductive Effect : Type :=
| Query (c : Call) (failure : option error)  (* one upstream round trip *)
| Send (m : Metric)                          (* [ch <- m] *)
| Println (msg : string).                    (* [log.Println] *)

Record World (Node : Type) : Type := {
  node : Node;
  effects : list Effect
}.
Arguments node {Node} _.
Arguments effects {Node} _.

Definition failure_of {A : Type} (r : Reply A) : option error :=
  match r with
  | Ok _ => None
  | Failed err => Some err
  end.

Section Session.
Context {Node : Type}.

(** One round trip: the node answers and moves on, the query is
    recorded. *)
Definition round_trip {A : Type} (c : Call) (rpc : Node -> Reply A * Node)
    (w : World Node) : Reply A * World Node :=
  let (r, n) := rpc (node w) in
  (r, {| node := n; effects := effects w ++ [Query c (failure_of r)] |}).

Definition client_GetInfo (client : Client Node) :=
  round_trip CallGetInfo (GetInfo client).
Definition client_GetNetTotals (client : Client Node) :=
  round_trip CallGetNetTotals (GetNetTotals client).
Definition client_GetBestBlockHash (client : Client Node) :=
  round_trip CallGetBestBlockHash (GetBestBlockHash client).
Definition client_GetBlockHeader (client : Client Node) (hash : Hash) :=
  round_trip (CallGetBlockHeader hash) (GetBlockHeader client hash).

(** [ch <- m] *)
Definition send (m : Metric) (w : World Node) : World Node :=
  {| node := node w; effects := effects w ++ [Send m] |}.

(** [log.Println(err)] *)
Definition log_Println (msg : string) (w : World Node) : World Node :=
  {| node := node w; effects := effects w ++ [Println msg] |}.

(** The effects added between [w] and a later world [w']. *)
Definition new_effects (w w' : World Node) : list Effect :=
  skipn (List.length (effects w)) (effects w').
End Session.

(** Readings of an effect list. *)
Definition sent (l : list Effect) : list Metric :=
  flat_map (fun ef => match ef with Send m => [m] | _ => [] end) l.

Definition logged (l : list Effect) : list string :=
  flat_map (fun ef => match ef with Println msg => [msg] | _ => [] end) l.

Definition queries (l : list Effect) : list (Call * option error) :=
  flat_map (fun ef => match ef with Query c r => [(c, r)] | _ => [] end) l.

(** No query follows a failed one. *)
Fixpoint short_circuited (qs : list (Call * option error)) : bool :=
  match qs with
  | [] => true
  | (_, Some _) :: _ :: _ => false
  | _ :: rest => short_circuited rest
  end.

Definition is_failed_query (ef : Effect) : bool :=
  match ef with
  | Query _ (Some _) => true
  | _ => false
  end.

Definition some_query_failed (l : list Effect) : bool :=
  existsb is_failed_query l.

(** How a Go function ends. *)
Inductive Outcome : Type :=
| Returned
| Panicked.  (* a run-time panic, here a nil pointer dereference *)

(** A sample as the scrape shows it: metric name, kind, value. *)
Definition sample (m : Metric) : string * ValueType * float64 :=
  (fqName (desc m), valType m, value m).

(** ** The surroundings of [main] *)

(** [rpcclient.ConnConfig]: the fields [main] sets; [Certificates] stays
    empty when it is not set. *)
Record ConnConfig : Type := {
  Host : string;
  Endpoint : string;
  User : string;
  Pass : string;
  Certificates : list Byte.byte
}.

(** The operating system and the libraries [main] calls. *)
Record Process : Type := {
  Getenv : string -> string;                    (* [os.Getenv] *)
  AppDataDir : string -> bool -> string;        (* [btcutil.AppDataDir] *)
  Join : string -> string -> string;            (* [filepath.Join] *)
  ReadFile : string -> Reply (list Byte.byte);  (* [ioutil.ReadFile] *)
  New : ConnConfig -> option error;             (* [rpcclient.New]: its error *)
  ListenAndServe : string -> option error       (* [None]: serves for ever *)
}.

(** What startup does, in order. *)
Inductive Action : Type :=
| Log (msg : string)             (* a line of the logger *)
| ReadCert (path : string)       (* reading the certificate file *)
| Dial (cfg : ConnConfig)        (* creating the upstream client *)
| Register                       (* [prometheus.MustRegister(exporter)] *)
| Handle (pattern : string)      (* [http.Handle], [http.HandleFunc] *)
| Listen (addr : string).        (* binding the port and serving *)

Inductive Status : Type :=
| Exit (code : Z)
| Serving.

(** [log.Fatal]: print, then [os.Exit(1)]. *)
Definition log_Fatal (msg : string) (done : list Action)
  : list Action * Status :=
  (done ++ [Log msg], Exit 1).

Definition is_Listen (a : Action) : bool :=
  match a with Listen _ => true | _ => false end.
Definition is_Dial (a : Action) : bool :=
  match a with Dial _ => true | _ => false end.
Definition is_ReadCert (a : Action) : bool :=
  match a with ReadCert _ => true | _ => false end.

(** The process started: the server was brought up. *)
Definition started (r : list Action * Status) : bool :=
  existsb is_Listen (fst r).

(** * The extended exporter, [btcd_exporter.go] *)

Module Extended.

Definition namespace : string := "btcd".

Definition up : Desc :=
  NewDesc (BuildFQName namespace "" "up")
    "Was the last btcd query successful."
    nil nil.
Definition blocks : Desc :=
  NewDesc (BuildFQName namespace "" "blocks_total")
    "How many blocks are reported by btcd getinfo."
    nil nil.
Definition latestBlock : Desc :=
  NewDesc (BuildFQName namespace "" "latest_block_timestamp")
    "Timestamp of the latest block in the chain. According to block header information."
    nil nil.
Definition peers : Desc :=
  NewDesc (BuildFQName namespace "" "peers")
    "How many peers are reported by btcd getinfo."
    nil nil.
Definition difficulty : Desc :=
  NewDesc (BuildFQName namespace "" "difficulty")
    "What is difficulty reported by btcd getinfo."
    nil nil.
Definition bytesSent : Desc :=
  NewDesc (BuildFQName namespace "" "sent_bytes")
    "How many bytes have been sent reported by btcd getnettotals."
    nil nil.
Definition bytesReceived : Desc :=
  NewDesc (BuildFQName namespace "" "received_bytes")
    "How many bytes have been received reported by btcd getnettotals."
    nil nil.

Module BtcdStatistics.
Record t : Type := {
  blocks : Z;
  peers : Z;
  difficulty : float64;
  bytesSent : Z;
  bytesReceived : Z;
  latestBlockTs : Z
}.
End BtcdStatistics.

(** A [*BtcdStatistics]; [None] is the nil pointer. *)
Definition newBtcdStatistics (blocks peers : Z) (difficulty : float64)
    (bytesSent bytesReceived latestBlockTs : Z) : option BtcdStatistics.t :=
  Some {| BtcdStatistics.blocks := blocks;
          BtcdStatistics.peers := peers;
          BtcdStatistics.difficulty := difficulty;
          BtcdStatistics.bytesSent := bytesSent;
          BtcdStatistics.bytesReceived := bytesReceived;
          BtcdStatistics.latestBlockTs := latestBlockTs |}.

Section Exporter.
Context {Node : Type}.

Record Exporter : Type := NewExporter { client : Client Node }.

(** The descriptors go to their own channel, here the list of what was
    sent on it. *)
Definition Describe (e : Exporter) (ch : list Desc) : list Desc :=
  ch ++ [up; blocks; peers; difficulty; bytesSent; bytesReceived; latestBlock].

(** Returns the Go pair [(statistics, err)] and the world after the
    queries. *)
Definition GetAllStatistics (e : Exporter) (w : World Node)
  : option BtcdStatistics.t * option error * World Node :=
  match client_GetInfo (client e) w with
  | (Failed err, w) => (None, Some err, w)
  | (Ok info, w) =>
  match client_GetNetTotals (client e) w with
  | (Failed err, w) => (None, Some err, w)
  | (Ok netTotals, w) =>
  match client_GetBestBlockHash (client e) w with
  | (Failed err, w) => (None, Some err, w)
  | (Ok bestBlockHash, w) =>
  match client_GetBlockHeader (client e) bestBlockHash w with
  | (Failed err, w) => (None, Some err, w)
  | (Ok blockHeader, w) =>
      let statistics :=
        newBtcdStatistics
          (int (Blocks info))
          (int (Connections info))
          (Difficulty info)
          (int (TotalBytesSent netTotals))
          (int (TotalBytesRecv netTotals))
          (int (Unix (Timestamp blockHeader))) in
      (statistics, None, w)
  end end end end.

(** The channel is unbuffered and the registry always receives: a send
    appends to the effects.  Reading a field through a nil [statistics]
    would panic. *)
Definition Collect (e : Exporter) (w : World Node) : Outcome * World Node :=
  let '(statistics, err, w) := GetAllStatistics e w in
  match err with
  | Some err =>
      let w := send (MustNewConstMetric up GaugeValue (float64_of_int 0)) w in
      let w := log_Println err w in
      (Returned, w)
  | None =>
      let w := send (MustNewConstMetric up GaugeValue (float64_of_int 1)) w in
      match statistics with
      | None => (Panicked, w)
      | Some statistics =>
          let w := send (MustNewConstMetric blocks CounterValue
                           (float64_of_int (BtcdStatistics.blocks statistics))) w in
          let w := send (MustNewConstMetric peers GaugeValue
                           (float64_of_int (BtcdStatistics.peers statistics))) w in
          let w := send (MustNewConstMetric difficulty GaugeValue
                           (BtcdStatistics.difficulty statistics)) w in
          let w := send (MustNewConstMetric bytesSent CounterValue
                           (float64_of_int (BtcdStatistics.bytesSent statistics))) w in
          let w := send (MustNewConstMetric bytesReceived GaugeValue
                           (float64_of_int (BtcdStatistics.bytesReceived statistics))) w in
          let w := send (MustNewConstMetric latestBlock GaugeValue
                           (float64_of_int (BtcdStatistics.latestBlockTs statistics))) w in
          (Returned, w)
      end
  end.

End Exporter.
Arguments Exporter Node : clear implicits.

Definition main (os : Process) : list Action * Status :=
  let host := Getenv os "BTCD_EXPORTER_HOST" in
  let username := Getenv os "BTCD_EXPORTER_USERNAME" in
  let password := Getenv os "BTCD_EXPORTER_PASSWORD" in
  let certPath := Getenv os "BTCD_EXPORTER_CERT_PATH" in
  if String.eqb host "" || String.eqb username "" || String.eqb password ""
  then log_Fatal "BTCD_EXPORTER_HOST, BTCD_EXPORTER_USERNAME, BTCD_EXPORTER_PASSWORD must be set" []
  else
  let '(certPath, done) :=
    if String.eqb certPath "" then
      let btcdHomeDir := AppDataDir os "btcd" false in
      let certPath := Join os btcdHomeDir "rpc.cert" in
      (certPath,
       [Log ("BTCD_EXPORTER_CERT_PATH not set, using default path:  " ++ certPath)%string])
    else (certPath, []) in
  let done := done ++ [ReadCert certPath] in
  match ReadFile os certPath with
  | Failed err => log_Fatal ("error reading cert file: " ++ err)%string done
  | Ok certs =>
  let connCfg := {| Host := host; Endpoint := "ws"; User := username;
                    Pass := password; Certificates := certs |} in
  let done := done ++ [Dial connCfg] in
  match New os connCfg with
  | Some err => log_Fatal err done
  | None =>
  let done := done ++ [Register; Handle "/metrics"; Handle "/";
                       Log "starting server on port 9101"; Listen ":9101"] in
  match ListenAndServe os ":9101" with
  | Some err => log_Fatal err done
  | None => (done, Serving)
  end end end.

End Extended.

(** * The basic exporter *)

Module Basic.

Definition namespace : string := "btcd".

Definition up : Desc :=
  NewDesc (BuildFQName namespace "" "up")
    "Was the last btcd query successful."
    nil nil.
Definition blocks : Desc :=
  NewDesc (BuildFQName namespace "" "blocks_total")
    "How many blocks are reported by btcd getinfo."
    nil nil.
Definition peers : Desc :=
  NewDesc (BuildFQName namespace "" "peers")
    "How many peers are reported by btcd getinfo."
    nil nil.
Definition difficulty : Desc :=
  NewDesc (BuildFQName namespace "" "difficulty")
    "What is difficulty reported by btcd getinfo."
    nil nil.
Definition bytesSent : Desc :=
  NewDesc (BuildFQName namespace "" "sent_bytes")
    "How many bytes have been sent reported by btcd getnettotals."
    nil nil.
Definition bytesReceived : Desc :=
  NewDesc (BuildFQName namespace "" "received_bytes")
    "How many bytes have been received reported by btcd getnettotals."
    nil nil.

Module BtcdStatistics.
Record t : Type := {
  blocks : Z;
  peers : Z;
  difficulty : float64;
  bytesSent : Z;
  bytesReceived : Z
}.
End BtcdStatistics.

(** A [*BtcdStatistics]; [None] is the nil pointer. *)
Definition newBtcdStatistics (blocks peers : Z) (difficulty : float64)
    (bytesSent bytesReceived : Z) : option BtcdStatistics.t :=
  Some {| BtcdStatistics.blocks := blocks;
          BtcdStatistics.peers := peers;
          BtcdStatistics.difficulty := difficulty;
          BtcdStatistics.bytesSent := bytesSent;
          BtcdStatistics.bytesReceived := bytesReceived |}.

Section Exporter.
Context {Node : Type}.

Record Exporter : Type := NewExporter { client : Client Node }.

Definition Describe (e : Exporter) (ch : list Desc) : list Desc :=
  ch ++ [up; blocks; peers; difficulty; bytesSent; bytesReceived].

Definition GetAllStatistics (e : Exporter) (w : World Node)
  : option BtcdStatistics.t * option error * World Node :=
  match client_GetInfo (client e) w with
  | (Failed err, w) => (None, Some err, w)
  | (Ok info, w) =>
  match client_GetNetTotals (client e) w with
  | (Failed err, w) => (None, Some err, w)
  | (Ok netTotals, w) =>
      let statistics :=
        newBtcdStatistics
          (int (Blocks info))
          (int (Connections info))
          (Difficulty info)
          (int (TotalBytesSent netTotals))
          (int (TotalBytesRecv netTotals)) in
      (statistics, None, w)
  end end.

Definition Collect (e : Exporter) (w : World Node) : Outcome * World Node :=
  let '(statistics, err, w) := GetAllStatistics e w in
  match err with
  | Some err =>
      let w := send (MustNewConstMetric up GaugeValue (float64_of_int 0)) w in
      let w := log_Println err w in
      (Returned, w)
  | None =>
      let w := send (MustNewConstMetric up GaugeValue (float64_of_int 1)) w in
      match statistics with
      | None => (Panicked, w)
      | Some statistics =>
          let w := send (MustNewConstMetric blocks CounterValue
                           (float64_of_int (BtcdStatistics.blocks statistics))) w in
          let w := send (MustNewConstMetric peers GaugeValue
                           (float64_of_int (BtcdStatistics.peers statistics))) w in
          let w := send (MustNewConstMetric difficulty GaugeValue
                           (BtcdStatistics.difficulty statistics)) w in
          let w := send (MustNewConstMetric bytesSent CounterValue
                           (float64_of_int (BtcdStatistics.bytesSent statistics))) w in
          let w := send (MustNewConstMetric bytesReceived GaugeValue
                           (float64_of_int (BtcdStatistics.bytesReceived statistics))) w in
          (Returned, w)
      end
  end.

End Exporter.
Arguments Exporter Node : clear implicits.

(** This variant neither looks at [BTCD_EXPORTER_CERT_PATH] nor reads a
    certificate file. *)
Definition main (os : Process) : list Action * Status :=
  let host := Getenv os "BTCD_EXPORTER_HOST" in
  let username := Getenv os "BTCD_EXPORTER_USERNAME" in
  let password := Getenv os "BTCD_EXPORTER_PASSWORD" in
  if String.eqb host "" || String.eqb username "" || String.eqb password ""
  then log_Fatal "BTCD_EXPORTER_HOST, BTCD_EXPORTER_USERNAME, BTCD_EXPORTER_PASSWORD must be set" []
  else
  let connCfg := {| Host := host; Endpoint := "ws"; User := username;
                    Pass := password; Certificates := [] |} in
  let done := [Dial connCfg] in
  match New os connCfg with
  | Some err => log_Fatal err done
  | None =>
  let done := done ++ [Register; Handle "/metrics"; Handle "/";
                       Log "starting server on 0.0.0.0:9101"; Listen ":9101"] in
  match ListenAndServe os ":9101" with
  | Some err => log_Fatal err done
  | None => (done, Serving)
  end end.

End Basic.

(** * Concrete surroundings, for running the definitions *)

(** A node that answers from a fixed script and counts the round trips it
    served. *)
Record Script : Type := {
  info_reply : Reply InfoWalletResult;
  net_reply : Reply GetNetTotalsResult;
  hash_reply : Reply Hash;
  header_reply : Hash -> Reply BlockHeader
}.

Definition scripted (s : Script) : Client nat := {|
  GetInfo := fun n => (info_reply s, S n);
  GetNetTotals := fun n => (net_reply s, S n);
  GetBestBlockHash := fun n => (hash_reply s, S n);
  GetBlockHeader := fun h n => (header_reply s h, S n)
|}.

Definition fresh : World nat := {| node := O; effects := [] |}.

(** 55e12 is the integer 55 * 10^12; it is below 2^53, so it is a
    [float64]. *)
Definition difficulty_55e12 : float64 := float64_of_int 55000000000000.

Definition hash_a : Hash := repeat Byte.x0a 32.
Definition hash_b : Hash := repeat Byte.x0b 32.

(** Scenarios A and C: every query succeeds; only [hash_a] has a header. *)
Definition node_ok : Script := {|
  info_reply := Ok {| Blocks := 800000; Connections := 8;
                      Difficulty := difficulty_55e12 |};
  net_reply := Ok {| TotalBytesRecv := 2000000; TotalBytesSent := 1000000 |};
  hash_reply := Ok hash_a;
  header_reply := fun h =>
    if list_eq_dec Byte.byte_eq_dec h hash_a
    then Ok {| Timestamp := {| Unix := 1700000000 |} |}
    else Failed "block not found"
|}.

(** Scenario B: [getInfo] is refused. *)
Definition node_refused : Script := {|
  info_reply := Failed "connection refused";
  net_reply := net_reply node_ok;
  hash_reply := hash_reply node_ok;
  header_reply := header_reply node_ok
|}.

(** Only the last query fails. *)
Definition node_no_header : Script := {|
  info_reply := info_reply node_ok;
  net_reply := net_reply node_ok;
  hash_reply := Ok hash_b;
  header_reply := header_reply node_ok
|}.

Definition env_of (l : list (string * string)) (k : string) : string :=
  match find (fun kv => String.eqb (fst kv) k) l with
  | Some kv => snd kv
  | None => ""
  end.

(** A Linux host without a certificate file: the three required variables
    are set, the certificate path is not, every read fails, the node accepts
    the session and the port is free. *)
Definition host_without_cert : Process := {|
  Getenv := env_of [("BTCD_EXPORTER_HOST", "localhost:8334");
                    ("BTCD_EXPORTER_USERNAME", "rpcuser");
                    ("BTCD_EXPORTER_PASSWORD", "rpcpass")];
  AppDataDir := fun app _ => ("/home/btcd/." ++ app)%string;
  Join := fun dir file => (dir ++ "/" ++ file)%string;
  ReadFile := fun path => Failed ("open " ++ path ++ ": no such file or directory")%string;
  New := fun _ => None;
  ListenAndServe := fun _ => None
|}.

(** The same host with the password missing. *)
Definition host_without_password : Process := {|
  Getenv := env_of [("BTCD_EXPORTER_HOST", "localhost:8334");
                    ("BTCD_EXPORTER_USERNAME", "rpcuser")];
  AppDataDir := AppDataDir host_without_cert;
  Join := Join host_without_cert;
  ReadFile := ReadFile host_without_cert;
  New := New host_without_cert;
  ListenAndServe := ListenAndServe host_without_cert
|}.

(** A host whose certificate path is set and readable. *)
Definition host_with_cert : Process := {|
  Getenv := env_of [("BTCD_EXPORTER_HOST", "localhost:8334");
                    ("BTCD_EXPORTER_USERNAME", "rpcuser");
                    ("BTCD_EXPORTER_PASSWORD", "rpcpass");
                    ("BTCD_EXPORTER_CERT_PATH", "/etc/btcd/rpc.cert")];
  AppDataDir := AppDataDir host_without_cert;
  Join := Join host_without_cert;
  ReadFile := fun path =>
    if String.eqb path "/etc/btcd/rpc.cert"
    then Ok [Byte.x2d; Byte.x2d; Byte.x2d]
    else Failed ("open " ++ path ++ ": no such file or directory")%string;
  New := fun _ => None;
  ListenAndServe := fun _ => None
|}.

(** The same host when the node refuses the session. *)
Definition host_node_down : Process := {|
  Getenv := Getenv host_with_cert;
  AppDataDir := AppDataDir host_with_cert;
  Join := Join host_with_cert;
  ReadFile := ReadFile host_with_cert;
  New := fun _ => Some "dial tcp 127.0.0.1:8334: connect: connection refused";
  ListenAndServe := fun _ => None
|}.

(** The same host when the port is taken. *)
Definition host_port_taken : Process := {|
  Getenv := Getenv host_with_cert;
  AppDataDir := AppDataDir host_with_cert;
  Join := Join host_with_cert;
  ReadFile := ReadFile host_with_cert;
  New := New host_with_cert;
  ListenAndServe := fun _ =>
    Some "listen tcp :9101: bind: address already in use"
|}.

(** A node whose counter of sent bytes has reached 2^63. *)
Definition node_huge_counter : Script := {|
  info_reply := info_reply node_ok;
  net_reply := Ok {| TotalBytesRecv := 2000000;
                     TotalBytesSent := 9223372036854775808 |};
  hash_reply := hash_reply node_ok;
  header_reply := header_reply node_ok
|}.

(** * Properties *)

(** ** Arithmetic of the scalar conversions *)

Lemma int_small (x : Z) :
  - 2 ^ 63 <= x < 2 ^ 63 -> int x = x.
Proof.
  intros H. unfold int, wrap_signed.
  change (64 - 1) with 63.
  rewrite Z.mod_small; [lia|].
  change (2 ^ 64) with (2 * 2 ^ 63). lia.
Qed.

Lemma iter_xO_digits (k p : positive) :
  digits2_pos (Pos.iter xO p k) = (digits2_pos p + k)%positive.
Proof.
  induction k as [|k IH] using Pos.peano_ind.
  - simpl. lia.
  - rewrite Pos.iter_succ. simpl. rewrite IH. lia.
Qed.

Lemma iter_xO_value (k p : positive) :
  Zpos (Pos.iter xO p k) = Zpos p * 2 ^ Zpos k.
Proof.
  induction k as [|k IH] using Pos.peano_ind.
  - simpl. lia.
  - rewrite Pos.iter_succ, Pos2Z.inj_xO, IH, Pos2Z.inj_succ.
    rewrite Z.pow_succ_r by lia. lia.
Qed.

Lemma digits2_pos_small (p : positive) (n : Z) :
  0 <= n -> Zpos p < 2 ^ n -> Zpos (digits2_pos p) <= n.
Proof.
  revert n. induction p as [p IH|p IH|]; intros n Hn H; simpl digits2_pos.
  - destruct (Z.eq_dec n 0) as [->|Hz]; [simpl in H; lia|].
    rewrite Pos2Z.inj_succ.
    assert (Zpos (digits2_pos p) <= n - 1); [|lia].
    apply IH; [lia|].
    replace n with (Z.succ (n - 1)) in H by lia.
    rewrite Z.pow_succ_r in H by lia. lia.
  - destruct (Z.eq_dec n 0) as [->|Hz]; [simpl in H; lia|].
    rewrite Pos2Z.inj_succ.
    assert (Zpos (digits2_pos p) <= n - 1); [|lia].
    apply IH; [lia|].
    replace n with (Z.succ (n - 1)) in H by lia.
    rewrite Z.pow_succ_r in H by lia. lia.
  - destruct (Z.eq_dec n 0) as [->|Hz]; [simpl in H; lia|lia].
Qed.

(** A 53-bit mantissa with an exponent in range is already rounded. *)
Lemma binary_round_aux_canonical (s : bool) (m : positive) (e : Z) :
  Zpos (digits2_pos m) = 53 -> - 1074 <= e <= 971 ->
  binary_round_aux 53 1024 s (Zpos m) e loc_Exact = S754_finite s m e.
Proof.
  intros Hd He.
  assert (Hs : shr_fexp 53 1024 (Zpos m) e loc_Exact =
               ({| shr_m := Zpos m; shr_r := false; shr_s := false |}, e)).
  { unfold shr_fexp. simpl Zdigits2. rewrite Hd.
    replace (fexp 53 1024 (53 + e) - e) with 0 by (unfold fexp, emin; lia).
    reflexivity. }
  unfold binary_round_aux. rewrite Hs.
  cbn [shr_m loc_of_shr_record round_nearest_even]. rewrite Hs.
  cbn [shr_m].
  destruct (e <=? 1024 - 53) eqn:Hle; [reflexivity|].
  apply Z.leb_gt in Hle. lia.
Qed.

(** A positive integer of at most 53 bits converts to the float with that
    mantissa shifted to 53 bits. *)
Lemma binary_round_small (s : bool) (p : positive) :
  Zpos (digits2_pos p) <= 53 ->
  exists m e,
    binary_round 53 1024 s p 0 = S754_finite s m e /\
    e <= 0 /\ Zpos m = Zpos p * 2 ^ (- e).
Proof.
  intros Hd. unfold binary_round.
  replace (fexp 53 1024 (Zpos (digits2_pos p) + 0))
    with (Zpos (digits2_pos p) - 53) by (unfold fexp, emin; lia).
  unfold shl_align.
  destruct (Zpos (digits2_pos p) - 53 - 0) as [|q|k] eqn:Hk; [| lia |].
  - (* already 53 bits *)
    exists p, 0. split; [|split; [lia | simpl; lia]].
    apply binary_round_aux_canonical; lia.
  - (* shifted left by [k] bits *)
    exists (Pos.iter xO p k), (Zpos (digits2_pos p) - 53).
    split; [|split; [lia|]].
    + apply binary_round_aux_canonical; [|lia].
      rewrite iter_xO_digits. lia.
    + rewrite iter_xO_value. f_equal. f_equal. lia.
Qed.

(** Integers below [2^53] in magnitude survive [float64(n)] unchanged. *)
Lemma float64_of_int_exact (n : Z) :
  - 2 ^ 53 < n < 2 ^ 53 -> float64_to_Z (float64_of_int n) = Some n.
Proof.
  intros Hn. unfold float64_of_int, binary_normalize.
  destruct n as [|p|p]; [reflexivity| |].
  - destruct (binary_round_small false p) as (m & e & -> & He & Hm).
    { apply digits2_pos_small; lia. }
    unfold float64_to_Z.
    destruct (0 <=? e) eqn:H0.
    + apply Z.leb_le in H0. assert (e = 0) as -> by lia.
      simpl in Hm. simpl. f_equal. lia.
    + rewrite Hm, Z.mod_mul, Z.eqb_refl by (apply Z.pow_nonzero; lia).
      rewrite Z.div_mul by (apply Z.pow_nonzero; lia). reflexivity.
  - destruct (binary_round_small true p) as (m & e & -> & He & Hm).
    { apply digits2_pos_small; lia. }
    unfold float64_to_Z.
    destruct (0 <=? e) eqn:H0.
    + apply Z.leb_le in H0. assert (e = 0) as -> by lia.
      simpl in Hm. simpl. f_equal. lia.
    + rewrite Hm, Z.mod_mul, Z.eqb_refl by (apply Z.pow_nonzero; lia).
      rewrite Z.div_mul by (apply Z.pow_nonzero; lia). reflexivity.
Qed.


(** ** Symbolic execution of a scrape *)

Arguments float64_of_int : simpl never.
Arguments int : simpl never.

Lemma new_effects_app {Node : Type} (w : World Node) (n : Node)
    (l : list Effect) :
  new_effects w {| node := n; effects := effects w ++ l |} = l.
Proof.
  unfold new_effects. cbn [effects].
  induction (effects w) as [|x xs IH]; [reflexivity | exact IH].
Qed.

(** Take the next round trip of the goal apart, by its reply. *)
Ltac next_reply :=
  match goal with
  | |- context [GetInfo ?c ?st] =>
      destruct (GetInfo c st) as [[?info|?err] ?n] eqn:?Hinfo
  | |- context [GetNetTotals ?c ?st] =>
      destruct (GetNetTotals c st) as [[?totals|?err] ?n] eqn:?Htotals
  | |- context [GetBestBlockHash ?c ?st] =>
      destruct (GetBestBlockHash c st) as [[?hash|?err] ?n] eqn:?Hhash
  | |- context [GetBlockHeader ?c ?h ?st] =>
      destruct (GetBlockHeader c h st) as [[?header|?err] ?n] eqn:?Hheader
  end;
  cbn [fst snd node effects failure_of send log_Println].

(** Use a reply that is already known. *)
Ltac known_reply :=
  match goal with
  | H : ?t = (_, _) |- context [?t] => rewrite H
  end;
  cbn [fst snd node effects failure_of send log_Println].

(** Bring the effects of a finished run to the form [effects w ++ l]. *)
Ltac flatten_effects :=
  unfold send, log_Println;
  cbn [fst snd node effects failure_of
       Extended.BtcdStatistics.blocks Extended.BtcdStatistics.peers
       Extended.BtcdStatistics.difficulty Extended.BtcdStatistics.bytesSent
       Extended.BtcdStatistics.bytesReceived
       Extended.BtcdStatistics.latestBlockTs
       Basic.BtcdStatistics.blocks Basic.BtcdStatistics.peers
       Basic.BtcdStatistics.difficulty Basic.BtcdStatistics.bytesSent
       Basic.BtcdStatistics.bytesReceived];
  repeat rewrite <- app_assoc; cbn [app];
  repeat rewrite new_effects_app.

Ltac run_extended :=
  unfold Extended.Collect, Extended.GetAllStatistics, Extended.newBtcdStatistics,
    client_GetInfo, client_GetNetTotals, client_GetBestBlockHash,
    client_GetBlockHeader, round_trip;
  repeat first [known_reply | next_reply]; flatten_effects.

Ltac run_basic :=
  unfold Basic.Collect, Basic.GetAllStatistics, Basic.newBtcdStatistics,
    client_GetInfo, client_GetNetTotals, round_trip;
  repeat first [known_reply | next_reply]; flatten_effects.

(** [short_circuited] says what it should. *)
Lemma short_circuited_sound (qs : list (Call * option error)) :
  short_circuited qs = true ->
  forall l1 c err l2, qs = l1 ++ (c, Some err) :: l2 -> l2 = [].
Proof.
  induction qs as [|[c0 r0] rest IH]; intros Hs l1 c err l2 E.
  - destruct l1; discriminate E.
  - destruct l1 as [|q l1]; cbn in E.
    + injection E as _ -> ->. cbn in Hs.
      destruct l2; [reflexivity | discriminate Hs].
    + injection E as _ ->.
      apply (IH) with (l1 := l1) (c := c) (err := err); [|reflexivity].
      cbn in Hs. destruct r0; [|exact Hs].
      destruct (l1 ++ (c, Some err) :: l2) eqn:El; [|discriminate Hs].
      destruct l1; discriminate El.
Qed.

(** ** The liveness gate *)

(** C1. Whenever a query of a scrape fails, [Collect] returns normally,
    sends exactly one sample, the gauge [btcd_up] with value 0, and logs the
    error of the failed query; in both variants.  Stated once by the replies
    of the node, query by query, giving the whole of what the scrape does,
    and once by the scrape's own record of its queries. *)
Theorem Collect_query_failed_only_up_0 :
  (* extended variant, by the query that fails *)
  (forall (Node : Type) (e : Extended.Exporter Node) (w : World Node)
          err n1,
     GetInfo (Extended.client e) (node w) = (Failed err, n1) ->
     Extended.Collect e w =
       (Returned,
        {| node := n1;
           effects := effects w ++
             [Query CallGetInfo (Some err);
              Send (MustNewConstMetric Extended.up GaugeValue (float64_of_int 0));
              Println err] |}))
  /\
  (forall (Node : Type) (e : Extended.Exporter Node) (w : World Node)
          info n1 err n2,
     GetInfo (Extended.client e) (node w) = (Ok info, n1) ->
     GetNetTotals (Extended.client e) n1 = (Failed err, n2) ->
     Extended.Collect e w =
       (Returned,
        {| node := n2;
           effects := effects w ++
             [Query CallGetInfo None;
              Query CallGetNetTotals (Some err);
              Send (MustNewConstMetric Extended.up GaugeValue (float64_of_int 0));
              Println err] |}))
  /\
  (forall (Node : Type) (e : Extended.Exporter Node) (w : World Node)
          info n1 totals n2 err n3,
     GetInfo (Extended.client e) (node w) = (Ok info, n1) ->
     GetNetTotals (Extended.client e) n1 = (Ok totals, n2) ->
     GetBestBlockHash (Extended.client e) n2 = (Failed err, n3) ->
     Extended.Collect e w =
       (Returned,
        {| node := n3;
           effects := effects w ++
             [Query CallGetInfo None;
              Query CallGetNetTotals None;
              Query CallGetBestBlockHash (Some err);
              Send (MustNewConstMetric Extended.up GaugeValue (float64_of_int 0));
              Println err] |}))
  /\
  (forall (Node : Type) (e : Extended.Exporter Node) (w : World Node)
          info n1 totals n2 hash n3 err n4,
     GetInfo (Extended.client e) (node w) = (Ok info, n1) ->
     GetNetTotals (Extended.client e) n1 = (Ok totals, n2) ->
     GetBestBlockHash (Extended.client e) n2 = (Ok hash, n3) ->
     GetBlockHeader (Extended.client e) hash n3 = (Failed err, n4) ->
     Extended.Collect e w =
       (Returned,
        {| node := n4;
           effects := effects w ++
             [Query CallGetInfo None;
              Query CallGetNetTotals None;
              Query CallGetBestBlockHash None;
              Query (CallGetBlockHeader hash) (Some err);
              Send (MustNewConstMetric Extended.up GaugeValue (float64_of_int 0));
              Println err] |}))
  /\
  (* basic variant, by the query that fails *)
  (forall (Node : Type) (e : Basic.Exporter Node) (w : World Node) err n1,
     GetInfo (Basic.client e) (node w) = (Failed err, n1) ->
     Basic.Collect e w =
       (Returned,
        {| node := n1;
           effects := effects w ++
             [Query CallGetInfo (Some err);
              Send (MustNewConstMetric Basic.up GaugeValue (float64_of_int 0));
              Println err] |}))
  /\
  (forall (Node : Type) (e : Basic.Exporter Node) (w : World Node)
          info n1 err n2,
     GetInfo (Basic.client e) (node w) = (Ok info, n1) ->
     GetNetTotals (Basic.client e) n1 = (Failed err, n2) ->
     Basic.Collect e w =
       (Returned,
        {| node := n2;
           effects := effects w ++
             [Query CallGetInfo None;
              Query CallGetNetTotals (Some err);
              Send (MustNewConstMetric Basic.up GaugeValue (float64_of_int 0));
              Println err] |}))
  /\
  (* by the scrape's own record *)
  (forall (Node : Type) (e : Extended.Exporter Node) (w : World Node),
     let new := new_effects w (snd (Extended.Collect e w)) in
     some_query_failed new = true ->
     fst (Extended.Collect e w) = Returned /\
     sent new = [MustNewConstMetric Extended.up GaugeValue (float64_of_int 0)] /\
     map sample (sent new) = [("btcd_up", GaugeValue, S754_zero false)] /\
     exists c err, In (Query c (Some err)) new /\ logged new = [err])
  /\
  (forall (Node : Type) (e : Basic.Exporter Node) (w : World Node),
     let new := new_effects w (snd (Basic.Collect e w)) in
     some_query_failed new = true ->
     fst (Basic.Collect e w) = Returned /\
     sent new = [MustNewConstMetric Basic.up GaugeValue (float64_of_int 0)] /\
     map sample (sent new) = [("btcd_up", GaugeValue, S754_zero false)] /\
     exists c err, In (Query c (Some err)) new /\ logged new = [err]).
Proof.
  repeat match goal with |- _ /\ _ => split end.
  - intros Node e w err n1 Hinfo. run_extended. reflexivity.
  - intros Node e w info n1 err n2 Hinfo Htotals. run_extended. reflexivity.
  - intros Node e w info n1 totals n2 err n3 Hinfo Htotals Hhash.
    run_extended. reflexivity.
  - intros Node e w info n1 totals n2 hash n3 err n4 Hinfo Htotals Hhash
           Hheader.
    run_extended. reflexivity.
  - intros Node e w err n1 Hinfo. run_basic. reflexivity.
  - intros Node e w info n1 err n2 Hinfo Htotals. run_basic. reflexivity.
  - intros Node e w new; subst new.
    run_extended; intros H; try discriminate H;
      (split; [reflexivity | split; [reflexivity | split; [reflexivity|]]]);
      do 2 eexists; (split; [|reflexivity]); cbn; tauto.
  - intros Node e w new; subst new.
    run_basic; intros H; try discriminate H;
      (split; [reflexivity | split; [reflexivity | split; [reflexivity|]]]);
      do 2 eexists; (split; [|reflexivity]); cbn; tauto.
Qed.

(** C1, run: in the extended variant [getBlockHeader] fails for the best
    block, after three successful queries; in the basic variant [getInfo] is
    refused (Scenario B).  Each time one sample, [btcd_up 0], and the error
    in the log. *)
Lemma Collect_query_failed_only_up_0_witness :
  let x := Extended.NewExporter (scripted node_no_header) in
  let b := Basic.NewExporter (scripted node_refused) in
  (GetBlockHeader (Extended.client x) hash_b 3%nat =
     (Failed "block not found", 4%nat) /\
   sent (effects (snd (Extended.Collect x fresh))) =
     [MustNewConstMetric Extended.up GaugeValue (float64_of_int 0)] /\
   logged (effects (snd (Extended.Collect x fresh))) = ["block not found"]) /\
  (GetInfo (Basic.client b) (node fresh) =
     (Failed "connection refused", 1%nat) /\
   Basic.Collect b fresh =
     (Returned,
      {| node := 1%nat;
         effects :=
           [Query CallGetInfo (Some "connection refused");
            Send (MustNewConstMetric Basic.up GaugeValue (float64_of_int 0));
            Println "connection refused"] |})) /\
  (some_query_failed (new_effects fresh (snd (Basic.Collect b fresh))) = true /\
   map sample (sent (new_effects fresh (snd (Basic.Collect b fresh)))) =
     [("btcd_up", GaugeValue, S754_zero false)]).
Proof.
  intros x b.
  destruct Collect_query_failed_only_up_0
    as (_ & _ & _ & Hx4 & Hb1 & _ & _ & Hbt).
  split; [|split].
  - split; [reflexivity|].
    rewrite (Hx4 nat x fresh
               {| Blocks := 800000; Connections := 8;
                  Difficulty := difficulty_55e12 |} 1%nat
               {| TotalBytesRecv := 2000000; TotalBytesSent := 1000000 |}
               2%nat hash_b 3%nat "block not found" 4%nat
               eq_refl eq_refl eq_refl eq_refl).
    split; reflexivity.
  - split; [reflexivity|].
    exact (Hb1 nat b fresh "connection refused" 1%nat eq_refl).
  - split; [reflexivity|].
    destruct (Hbt nat b fresh eq_refl) as (_ & _ & Hs & _). exact Hs.
Defined.



(** ** Order of the queries *)

(** C3. The queries of one scrape are made one after the other in the fixed
    order [getInfo], [getNetTotals], [getBestBlockHash], [getBlockHeader]
    (the first two in the basic variant), each on the node as the one before
    left it, and the first failure ends them: a failing [getInfo] is the only
    query; after a successful [getInfo], [getNetTotals] is the second query,
    and the last if it fails; after that, [getBestBlockHash] is the third,
    and the last if it fails; after that, [getBlockHeader] is the fourth and
    last.  In any case the queries are a non-empty initial part of the
    sequence and no query follows a failed one. *)
Theorem queries_in_fixed_order_short_circuit :
  (forall (Node : Type) (e : Extended.Exporter Node) (w : World Node),
     let new := new_effects w (snd (Extended.Collect e w)) in
     (exists k hash,
        (1 <= k)%nat /\
        map fst (queries new) =
          firstn k [CallGetInfo; CallGetNetTotals; CallGetBestBlockHash;
                    CallGetBlockHeader hash]) /\
     (forall l1 c err l2,
        queries new = l1 ++ (c, Some err) :: l2 -> l2 = []) /\
     (forall err n1,
        GetInfo (Extended.client e) (node w) = (Failed err, n1) ->
        queries new = [(CallGetInfo, Some err)] /\
        node (snd (Extended.Collect e w)) = n1) /\
     (forall info n1 err n2,
        GetInfo (Extended.client e) (node w) = (Ok info, n1) ->
        GetNetTotals (Extended.client e) n1 = (Failed err, n2) ->
        queries new = [(CallGetInfo, None); (CallGetNetTotals, Some err)] /\
        node (snd (Extended.Collect e w)) = n2) /\
     (forall info n1 totals n2 err n3,
        GetInfo (Extended.client e) (node w) = (Ok info, n1) ->
        GetNetTotals (Extended.client e) n1 = (Ok totals, n2) ->
        GetBestBlockHash (Extended.client e) n2 = (Failed err, n3) ->
        queries new = [(CallGetInfo, None); (CallGetNetTotals, None);
                       (CallGetBestBlockHash, Some err)] /\
        node (snd (Extended.Collect e w)) = n3) /\
     (forall info n1 totals n2 hash n3,
        GetInfo (Extended.client e) (node w) = (Ok info, n1) ->
        GetNetTotals (Extended.client e) n1 = (Ok totals, n2) ->
        GetBestBlockHash (Extended.client e) n2 = (Ok hash, n3) ->
        queries new =
          [(CallGetInfo, None); (CallGetNetTotals, None);
           (CallGetBestBlockHash, None);
           (CallGetBlockHeader hash,
            failure_of (fst (GetBlockHeader (Extended.client e) hash n3)))] /\
        node (snd (Extended.Collect e w)) =
          snd (GetBlockHeader (Extended.client e) hash n3)))
  /\
  (forall (Node : Type) (e : Basic.Exporter Node) (w : World Node),
     let new := new_effects w (snd (Basic.Collect e w)) in
     (exists k,
        (1 <= k)%nat /\
        map fst (queries new) = firstn k [CallGetInfo; CallGetNetTotals]) /\
     (forall l1 c err l2,
        queries new = l1 ++ (c, Some err) :: l2 -> l2 = []) /\
     (forall err n1,
        GetInfo (Basic.client e) (node w) = (Failed err, n1) ->
        queries new = [(CallGetInfo, Some err)] /\
        node (snd (Basic.Collect e w)) = n1) /\
     (forall info n1,
        GetInfo (Basic.client e) (node w) = (Ok info, n1) ->
        queries new =
          [(CallGetInfo, None);
           (CallGetNetTotals,
            failure_of (fst (GetNetTotals (Basic.client e) n1)))] /\
        node (snd (Basic.Collect e w)) =
          snd (GetNetTotals (Basic.client e) n1))).
Proof.
  split; intros Node e w new; subst new.
  - repeat match goal with |- _ /\ _ => split end.
    + run_extended;
        [ exists 4%nat, hash | exists 4%nat, hash | exists 3%nat, []
        | exists 2%nat, [] | exists 1%nat, [] ];
        (split; [lia | reflexivity]).
    + run_extended; apply short_circuited_sound; reflexivity.
    + intros err n1 Hinfo. run_extended. split; reflexivity.
    + intros info n1 err n2 Hinfo Htotals. run_extended. split; reflexivity.
    + intros info n1 totals n2 err n3 Hinfo Htotals Hhash.
      run_extended. split; reflexivity.
    + intros info n1 totals n2 hash n3 Hinfo Htotals Hhash.
      run_extended; split; reflexivity.
  - repeat match goal with |- _ /\ _ => split end.
    + run_basic; [ exists 2%nat | exists 2%nat | exists 1%nat ];
        (split; [lia | reflexivity]).
    + run_basic; apply short_circuited_sound; reflexivity.
    + intros err n1 Hinfo. run_basic. split; reflexivity.
    + intros info n1 Hinfo. run_basic; split; reflexivity.
Qed.

(** C3, run: a node that has no header for its best block is asked all four
    queries in order, the last for that block; a node that refuses [getInfo]
    is asked nothing else; the basic variant asks its two queries. *)
Lemma queries_in_fixed_order_short_circuit_witness :
  let x := Extended.NewExporter (scripted node_no_header) in
  let r := Extended.NewExporter (scripted node_refused) in
  let b := Basic.NewExporter (scripted node_ok) in
  (GetBestBlockHash (Extended.client x) 2%nat = (Ok hash_b, 3%nat) /\
   queries (new_effects fresh (snd (Extended.Collect x fresh))) =
     [(CallGetInfo, None); (CallGetNetTotals, None);
      (CallGetBestBlockHash, None);
      (CallGetBlockHeader hash_b, Some "block not found")] /\
   node (snd (Extended.Collect x fresh)) = 4%nat) /\
  (GetInfo (Extended.client r) (node fresh) =
     (Failed "connection refused", 1%nat) /\
   queries (new_effects fresh (snd (Extended.Collect r fresh))) =
     [(CallGetInfo, Some "connection refused")] /\
   node (snd (Extended.Collect r fresh)) = 1%nat) /\
  (GetInfo (Basic.client b) (node fresh) =
     (Ok {| Blocks := 800000; Connections := 8;
            Difficulty := difficulty_55e12 |}, 1%nat) /\
   queries (new_effects fresh (snd (Basic.Collect b fresh))) =
     [(CallGetInfo, None); (CallGetNetTotals, None)] /\
   node (snd (Basic.Collect b fresh)) = 2%nat).
Proof.
  intros x r b.
  destruct queries_in_fixed_order_short_circuit as (HX & HB).
  split; [|split].
  - split; [reflexivity|].
    destruct (HX nat x fresh) as (_ & _ & _ & _ & _ & H4).
    exact (H4 {| Blocks := 800000; Connections := 8;
                 Difficulty := difficulty_55e12 |} 1%nat
              {| TotalBytesRecv := 2000000; TotalBytesSent := 1000000 |}
              2%nat hash_b 3%nat eq_refl eq_refl eq_refl).
  - split; [reflexivity|].
    destruct (HX nat r fresh) as (_ & _ & H1 & _).
    exact (H1 "connection refused" 1%nat eq_refl).
  - split; [reflexivity|].
    destruct (HB nat b fresh) as (_ & _ & _ & H2).
    exact (H2 {| Blocks := 800000; Connections := 8;
                 Difficulty := difficulty_55e12 |} 1%nat eq_refl).
Defined.

(** ** The snapshot *)

(** C4. [GetAllStatistics] returns either a snapshot and a nil error, every
    field converted from the reply of a query that succeeded in this call,
    or a nil snapshot and the error of the query that failed; nothing else.
    In the second case [Collect] sends [btcd_up 0] and none of the values
    fetched before the failure. *)
Theorem GetAllStatistics_all_or_nothing :
  (forall (Node : Type) (e : Extended.Exporter Node) (w : World Node),
     match Extended.GetAllStatistics e w with
     | (Some st, None, w') =>
         exists info n1 totals n2 hash n3 header,
           GetInfo (Extended.client e) (node w) = (Ok info, n1) /\
           GetNetTotals (Extended.client e) n1 = (Ok totals, n2) /\
           GetBestBlockHash (Extended.client e) n2 = (Ok hash, n3) /\
           GetBlockHeader (Extended.client e) hash n3 = (Ok header, node w') /\
           st = {| Extended.BtcdStatistics.blocks := int (Blocks info);
                   Extended.BtcdStatistics.peers := int (Connections info);
                   Extended.BtcdStatistics.difficulty := Difficulty info;
                   Extended.BtcdStatistics.bytesSent :=
                     int (TotalBytesSent totals);
                   Extended.BtcdStatistics.bytesReceived :=
                     int (TotalBytesRecv totals);
                   Extended.BtcdStatistics.latestBlockTs :=
                     int (Unix (Timestamp header)) |}
     | (None, Some err, w') =>
         (exists c, In (c, Some err) (queries (new_effects w w'))) /\
         sent (new_effects w (snd (Extended.Collect e w))) =
           [MustNewConstMetric Extended.up GaugeValue (float64_of_int 0)]
     | _ => False
     end)
  /\
  (forall (Node : Type) (e : Basic.Exporter Node) (w : World Node),
     match Basic.GetAllStatistics e w with
     | (Some st, None, w') =>
         exists info n1 totals,
           GetInfo (Basic.client e) (node w) = (Ok info, n1) /\
           GetNetTotals (Basic.client e) n1 = (Ok totals, node w') /\
           st = {| Basic.BtcdStatistics.blocks := int (Blocks info);
                   Basic.BtcdStatistics.peers := int (Connections info);
                   Basic.BtcdStatistics.difficulty := Difficulty info;
                   Basic.BtcdStatistics.bytesSent :=
                     int (TotalBytesSent totals);
                   Basic.BtcdStatistics.bytesReceived :=
                     int (TotalBytesRecv totals) |}
     | (None, Some err, w') =>
         (exists c, In (c, Some err) (queries (new_effects w w'))) /\
         sent (new_effects w (snd (Basic.Collect e w))) =
           [MustNewConstMetric Basic.up GaugeValue (float64_of_int 0)]
     | _ => False
     end).
Proof.
  split; intros Node e w.
  - run_extended;
      try (split; [eexists; cbn; tauto | reflexivity]).
    do 7 eexists. repeat split; eassumption.
  - run_basic;
      try (split; [eexists; cbn; tauto | reflexivity]).
    do 3 eexists. repeat split; eassumption.
Qed.

(** ** Value kinds *)



(** ** The latest block *)

(** C6. In the extended variant, when the four queries succeed,
    [getBlockHeader] is asked for the hash that [getBestBlockHash] returned,
    and the one sample [btcd_latest_block_timestamp] is the gauge holding
    the header's Unix time converted to [float64]; a time below 2^53 in
    magnitude, as the 32-bit times of block headers are, is held exactly. *)
Theorem latest_block_timestamp_of_best_block :
  forall (Node : Type) (e : Extended.Exporter Node) (w : World Node)
         info n1 totals n2 hash n3 header n4,
    GetInfo (Extended.client e) (node w) = (Ok info, n1) ->
    GetNetTotals (Extended.client e) n1 = (Ok totals, n2) ->
    GetBestBlockHash (Extended.client e) n2 = (Ok hash, n3) ->
    GetBlockHeader (Extended.client e) hash n3 = (Ok header, n4) ->
    let new := new_effects w (snd (Extended.Collect e w)) in
    let latest :=
      filter (fun m => String.eqb (fqName (desc m)) "btcd_latest_block_timestamp")
             (sent new) in
    queries new =
      [(CallGetInfo, None); (CallGetNetTotals, None);
       (CallGetBestBlockHash, None); (CallGetBlockHeader hash, None)] /\
    latest =
      [MustNewConstMetric Extended.latestBlock GaugeValue
         (float64_of_int (int (Unix (Timestamp header))))] /\
    (- 2 ^ 53 < Unix (Timestamp header) < 2 ^ 53 ->
     map (fun m => float64_to_Z (value m)) latest =
       [Some (Unix (Timestamp header))]).
Proof.
  intros Node e w info n1 totals n2 hash n3 header n4
         Hinfo Htotals Hhash Hheader new latest.
  subst latest new. run_extended.
  split; [reflexivity|]. split; [reflexivity|].
  intros Hts. cbn.
  rewrite int_small.
  - rewrite float64_of_int_exact by exact Hts. reflexivity.
  - assert (2 ^ 53 < 2 ^ 63) by reflexivity. lia.
Qed.

(** C6, run: Scenario C, a best block of time 1700000000. *)
Lemma latest_block_timestamp_of_best_block_witness :
  let e := Extended.NewExporter (scripted node_ok) in
  let new := new_effects fresh (snd (Extended.Collect e fresh)) in
  let latest :=
    filter (fun m => String.eqb (fqName (desc m)) "btcd_latest_block_timestamp")
           (sent new) in
  (GetBestBlockHash (Extended.client e) 2%nat = (Ok hash_a, 3%nat) /\
   GetBlockHeader (Extended.client e) hash_a 3%nat =
     (Ok {| Timestamp := {| Unix := 1700000000 |} |}, 4%nat) /\
   - 2 ^ 53 < 1700000000 < 2 ^ 53) /\
  In (CallGetBlockHeader hash_a, None) (queries new) /\
  map (fun m => (fqName (desc m), float64_to_Z (value m))) latest =
    [("btcd_latest_block_timestamp", Some 1700000000)].
Proof.
  intros e new latest.
  split; [split; [reflexivity | split; [reflexivity | split; reflexivity]] |].
  destruct (latest_block_timestamp_of_best_block nat e fresh
              {| Blocks := 800000; Connections := 8;
                 Difficulty := difficulty_55e12 |} 1%nat
              {| TotalBytesRecv := 2000000; TotalBytesSent := 1000000 |} 2%nat
              hash_a 3%nat {| Timestamp := {| Unix := 1700000000 |} |} 4%nat
              eq_refl eq_refl eq_refl eq_refl) as (Hq & Hl & Hv).
  fold new in Hq. fold new latest in Hl.
  split.
  - rewrite Hq. cbn. tauto.
  - rewrite Hl. reflexivity.
Defined.

(** ** Startup *)

(** C7. When the host, the user name or the password is empty, [main] of
    either variant prints the diagnostic and exits with status 1, having
    neither created the upstream client nor bound the port. *)
Theorem main_missing_variable_is_fatal :
  forall os : Process,
    Getenv os "BTCD_EXPORTER_HOST" = "" \/
    Getenv os "BTCD_EXPORTER_USERNAME" = "" \/
    Getenv os "BTCD_EXPORTER_PASSWORD" = "" ->
    (Extended.main os =
       ([Log "BTCD_EXPORTER_HOST, BTCD_EXPORTER_USERNAME, BTCD_EXPORTER_PASSWORD must be set"],
        Exit 1) /\
     existsb is_Dial (fst (Extended.main os)) = false /\
     existsb is_ReadCert (fst (Extended.main os)) = false /\
     started (Extended.main os) = false) /\
    (Basic.main os =
       ([Log "BTCD_EXPORTER_HOST, BTCD_EXPORTER_USERNAME, BTCD_EXPORTER_PASSWORD must be set"],
        Exit 1) /\
     existsb is_Dial (fst (Basic.main os)) = false /\
     started (Basic.main os) = false).
Proof.
  intros os H.
  assert (Hc : String.eqb (Getenv os "BTCD_EXPORTER_HOST") ""
               || String.eqb (Getenv os "BTCD_EXPORTER_USERNAME") ""
               || String.eqb (Getenv os "BTCD_EXPORTER_PASSWORD") "" = true).
  { destruct H as [H|[H|H]]; rewrite H; cbn;
      rewrite ?orb_true_r; reflexivity. }
  unfold Extended.main, Basic.main. rewrite Hc.
  repeat split.
Qed.

(** C7, run: the password is missing. *)
Lemma main_missing_variable_is_fatal_witness :
  (Getenv host_without_password "BTCD_EXPORTER_HOST" = "" \/
   Getenv host_without_password "BTCD_EXPORTER_USERNAME" = "" \/
   Getenv host_without_password "BTCD_EXPORTER_PASSWORD" = "") /\
  snd (Extended.main host_without_password) = Exit 1 /\
  snd (Basic.main host_without_password) = Exit 1.
Proof.
  assert (H : Getenv host_without_password "BTCD_EXPORTER_HOST" = "" \/
              Getenv host_without_password "BTCD_EXPORTER_USERNAME" = "" \/
              Getenv host_without_password "BTCD_EXPORTER_PASSWORD" = "").
  { right. right. reflexivity. }
  split; [exact H|].
  destruct (main_missing_variable_is_fatal host_without_password H)
    as ((Hx & _) & (Hb & _)).
  rewrite Hx, Hb. split; reflexivity.
Defined.

(** C8, as stated, fails on the basic variant: on a host where the
    certificate path is not set and the file at the default location cannot
    be read, the basic [main] reads no file, creates the client and
    serves. *)
Lemma Basic_main_serves_without_certificate :
  Getenv host_without_cert "BTCD_EXPORTER_CERT_PATH" = "" /\
  ReadFile host_without_cert
    (Join host_without_cert (AppDataDir host_without_cert "btcd" false)
          "rpc.cert") =
    Failed "open /home/btcd/.btcd/rpc.cert: no such file or directory" /\
  existsb is_ReadCert (fst (Basic.main host_without_cert)) = false /\
  started (Basic.main host_without_cert) = true /\
  snd (Basic.main host_without_cert) = Serving.
Proof.
  repeat split.
Qed.

(** C8, amended. In the extended variant [main] reads a certificate only at
    the resolved path: the path of the variable or, when that is empty,
    [rpc.cert] in the per-OS data directory of btcd; it does read it whenever
    the three required variables are set; and whenever the file at the
    resolved path cannot be read, [main] exits with status 1, having neither
    created the client nor bound the port (with the diagnostic of the read,
    when the read is reached).  The basic variant has no certificate
    handling: its [main] reads no file, passes no certificate to the client,
    and does the same on two hosts that differ only in the certificate
    variable, the data directory and the files. *)
Theorem certificate_handling_of_main :
  (* extended variant *)
  (forall os : Process,
     let certPath := Getenv os "BTCD_EXPORTER_CERT_PATH" in
     let resolved :=
       if String.eqb certPath ""
       then Join os (AppDataDir os "btcd" false) "rpc.cert"
       else certPath in
     (forall p, In (ReadCert p) (fst (Extended.main os)) -> p = resolved) /\
     (forall err,
        ReadFile os resolved = Failed err ->
        snd (Extended.main os) = Exit 1 /\
        existsb is_Dial (fst (Extended.main os)) = false /\
        started (Extended.main os) = false) /\
     (Getenv os "BTCD_EXPORTER_HOST" <> "" ->
      Getenv os "BTCD_EXPORTER_USERNAME" <> "" ->
      Getenv os "BTCD_EXPORTER_PASSWORD" <> "" ->
      map (fun a => match a with ReadCert p => p | _ => "" end)
          (filter is_ReadCert (fst (Extended.main os))) = [resolved] /\
      (forall err,
         ReadFile os resolved = Failed err ->
         snd (Extended.main os) = Exit 1 /\
         In (Log ("error reading cert file: " ++ err)%string)
            (fst (Extended.main os)) /\
         existsb is_Dial (fst (Extended.main os)) = false /\
         started (Extended.main os) = false)))
  /\
  (* basic variant *)
  (forall os : Process,
     existsb is_ReadCert (fst (Basic.main os)) = false /\
     (forall cfg, In (Dial cfg) (fst (Basic.main os)) ->
                  Certificates cfg = []))
  /\
  (forall os os' : Process,
     (forall k, k <> "BTCD_EXPORTER_CERT_PATH" -> Getenv os k = Getenv os' k) ->
     (forall cfg, New os cfg = New os' cfg) ->
     (forall addr, ListenAndServe os addr = ListenAndServe os' addr) ->
     Basic.main os = Basic.main os').
Proof.
  split; [|split].
  - intros os certPath resolved. subst resolved certPath.
    unfold Extended.main, log_Fatal, started.
    destruct (String.eqb_spec (Getenv os "BTCD_EXPORTER_HOST") "") as [Eh|Nh];
      [|destruct (String.eqb_spec (Getenv os "BTCD_EXPORTER_USERNAME") "")
          as [Eu|Nu];
        [|destruct (String.eqb_spec (Getenv os "BTCD_EXPORTER_PASSWORD") "")
            as [Ep|Np]]];
      cbn [orb];
      try (split; [intros p [H|[]]; discriminate H|];
           split; [intros err _; repeat split|];
           intros; contradiction).
    destruct (String.eqb (Getenv os "BTCD_EXPORTER_CERT_PATH") "");
      cbn [app fst snd];
      match goal with
      | |- context [ReadFile os ?p] => destruct (ReadFile os p) as [certs|rerr]
      end;
      try destruct (New os _) as [derr|];
      try destruct (ListenAndServe os _) as [lerr|];
      (split;
       [ intros p H; cbn in H;
         repeat (destruct H as [H|H];
                 [first [discriminate H | injection H as <-; reflexivity]|]);
         destruct H
       | split;
         [ intros err E; try discriminate E; repeat split
         | intros _ _ _; split; [reflexivity|];
           intros err E; try discriminate E;
           injection E as ->; cbn; repeat split; tauto ] ]).
  - intros os. unfold Basic.main, log_Fatal.
    destruct (String.eqb (Getenv os "BTCD_EXPORTER_HOST") ""
              || String.eqb (Getenv os "BTCD_EXPORTER_USERNAME") ""
              || String.eqb (Getenv os "BTCD_EXPORTER_PASSWORD") "");
      [|destruct (New os _) as [derr|];
        [|destruct (ListenAndServe os _) as [lerr|]]];
      (split;
       [ reflexivity
       | intros cfg H; cbn in H;
         repeat (destruct H as [H|H];
                 [first [discriminate H | injection H as <-; reflexivity]|]);
         destruct H ]).
  - intros os os' Henv Hnew Hlisten. unfold Basic.main.
    rewrite <- (Henv "BTCD_EXPORTER_HOST") by discriminate.
    rewrite <- (Henv "BTCD_EXPORTER_USERNAME") by discriminate.
    rewrite <- (Henv "BTCD_EXPORTER_PASSWORD") by discriminate.
    rewrite <- Hnew, <- Hlisten. reflexivity.
Qed.

(** C8, run: the host without a certificate file, started by the extended
    [main]; and the basic [main] on that host and on the host whose
    certificate is set and readable. *)
Lemma certificate_handling_of_main_witness :
  (Getenv host_without_cert "BTCD_EXPORTER_HOST" <> "" /\
   Getenv host_without_cert "BTCD_EXPORTER_USERNAME" <> "" /\
   Getenv host_without_cert "BTCD_EXPORTER_PASSWORD" <> "") /\
  (filter is_ReadCert (fst (Extended.main host_without_cert)) =
     [ReadCert "/home/btcd/.btcd/rpc.cert"] /\
   snd (Extended.main host_without_cert) = Exit 1 /\
   started (Extended.main host_without_cert) = false) /\
  ((forall k, k <> "BTCD_EXPORTER_CERT_PATH" ->
              Getenv host_without_cert k = Getenv host_with_cert k) /\
   Basic.main host_without_cert = Basic.main host_with_cert).
Proof.
  assert (Hh : Getenv host_without_cert "BTCD_EXPORTER_HOST" <> "")
    by discriminate.
  assert (Hu : Getenv host_without_cert "BTCD_EXPORTER_USERNAME" <> "")
    by discriminate.
  assert (Hp : Getenv host_without_cert "BTCD_EXPORTER_PASSWORD" <> "")
    by discriminate.
  assert (Henv : forall k, k <> "BTCD_EXPORTER_CERT_PATH" ->
                   Getenv host_without_cert k = Getenv host_with_cert k).
  { intros k Hk. unfold host_without_cert, host_with_cert.
    cbn [Getenv]. unfold env_of. cbn [find fst snd].
    destruct (String.eqb "BTCD_EXPORTER_HOST" k); [reflexivity|].
    destruct (String.eqb "BTCD_EXPORTER_USERNAME" k); [reflexivity|].
    destruct (String.eqb "BTCD_EXPORTER_PASSWORD" k); [reflexivity|].
    destruct (String.eqb_spec "BTCD_EXPORTER_CERT_PATH" k) as [E|_];
      [symmetry in E; contradiction | reflexivity]. }
  destruct certificate_handling_of_main as (HX & _ & HB).
  split; [repeat split; assumption|]. split.
  - split; [reflexivity|].
    destruct (HX host_without_cert) as (_ & _ & Hset).
    destruct (Hset Hh Hu Hp) as (_ & Hfail).
    destruct (Hfail _ eq_refl) as (Hexit & _ & _ & Hstart).
    split; assumption.
  - split; [exact Henv|].
    apply (HB host_without_cert host_with_cert Henv);
      intros; reflexivity.
Defined.

(** ** Shape of a successful scrape *)





(** * Further properties of the scrape *)

Lemma int_wrap_high (x : Z) :
  2 ^ 63 <= x < 2 ^ 64 -> int x = x - 2 ^ 64.
Proof.
  intros H. unfold int, wrap_signed. change (64 - 1) with 63.
  replace (x + 2 ^ 63) with (x - 2 ^ 63 + 1 * 2 ^ 64)
    by (change (2 ^ 64) with (2 * 2 ^ 63); lia).
  rewrite Z.mod_add by (apply Z.pow_nonzero; lia).
  rewrite Z.mod_small; change (2 ^ 64) with (2 * 2 ^ 63) in *; lia.
Qed.

(** X2. Every scrape returns without a panic and sends [btcd_up] exactly
    once, as its first sample: 1 followed by the other samples (six, five in
    the basic variant) when no query failed, 0 alone otherwise. *)
Theorem Collect_one_up_per_scrape :
  (forall (Node : Type) (e : Extended.Exporter Node) (w : World Node),
     let new := new_effects w (snd (Extended.Collect e w)) in
     fst (Extended.Collect e w) = Returned /\
     exists rest,
       sent new =
         MustNewConstMetric Extended.up GaugeValue
           (float64_of_int (if some_query_failed new then 0 else 1)) :: rest /\
       Forall (fun m => desc m <> Extended.up) rest /\
       List.length rest = if some_query_failed new then 0%nat else 6%nat)
  /\
  (forall (Node : Type) (e : Basic.Exporter Node) (w : World Node),
     let new := new_effects w (snd (Basic.Collect e w)) in
     fst (Basic.Collect e w) = Returned /\
     exists rest,
       sent new =
         MustNewConstMetric Basic.up GaugeValue
           (float64_of_int (if some_query_failed new then 0 else 1)) :: rest /\
       Forall (fun m => desc m <> Basic.up) rest /\
       List.length rest = if some_query_failed new then 0%nat else 5%nat).
Proof.
  split; intros Node e w new; subst new.
  - run_extended; (split; [reflexivity|]); eexists;
      (split; [reflexivity|]);
      (split; [repeat constructor; discriminate | reflexivity]).
  - run_basic; (split; [reflexivity|]); eexists;
      (split; [reflexivity|]);
      (split; [repeat constructor; discriminate | reflexivity]).
Qed.

(** X3. [GetAllStatistics] sends nothing and logs nothing; [Collect] makes
    no round trip of its own, leaving the node as [GetAllStatistics] left
    it; and [Collect] logs the returned error, or nothing when there is
    none. *)
Theorem Collect_queries_only_through_GetAllStatistics :
  (forall (Node : Type) (e : Extended.Exporter Node) (w : World Node),
     let fetched := Extended.GetAllStatistics e w in
     let new := new_effects w (snd (Extended.Collect e w)) in
     sent (new_effects w (snd fetched)) = [] /\
     logged (new_effects w (snd fetched)) = [] /\
     queries new = queries (new_effects w (snd fetched)) /\
     node (snd (Extended.Collect e w)) = node (snd fetched) /\
     logged new = match snd (fst fetched) with
                  | Some err => [err]
                  | None => []
                  end)
  /\
  (forall (Node : Type) (e : Basic.Exporter Node) (w : World Node),
     let fetched := Basic.GetAllStatistics e w in
     let new := new_effects w (snd (Basic.Collect e w)) in
     sent (new_effects w (snd fetched)) = [] /\
     logged (new_effects w (snd fetched)) = [] /\
     queries new = queries (new_effects w (snd fetched)) /\
     node (snd (Basic.Collect e w)) = node (snd fetched) /\
     logged new = match snd (fst fetched) with
                  | Some err => [err]
                  | None => []
                  end).
Proof.
  split; intros Node e w fetched new; subst fetched new.
  - run_extended; repeat split.
  - run_basic; repeat split.
Qed.

(** X4. The two variants on one client and one world: when one of the first
    two queries fails, the extended scrape is the basic scrape, effect for
    effect; when the extended scrape succeeds, so does the basic one, and
    its samples are the first six of the extended one. *)
Theorem Extended_Collect_extends_Basic_Collect :
  forall (Node : Type) (c : Client Node) (w : World Node),
    let x := Extended.NewExporter c in
    let b := Basic.NewExporter c in
    let new_x := new_effects w (snd (Extended.Collect x w)) in
    let new_b := new_effects w (snd (Basic.Collect b w)) in
    (some_query_failed new_b = true ->
     Extended.Collect x w = Basic.Collect b w) /\
    (some_query_failed new_x = false ->
     some_query_failed new_b = false /\
     sent new_b = firstn 6 (sent new_x) /\
     queries new_b = firstn 2 (queries new_x)).
Proof.
  intros Node c w x b new_x new_b. subst new_x new_b x b.
  unfold Extended.Collect, Extended.GetAllStatistics,
    Extended.newBtcdStatistics, Basic.Collect, Basic.GetAllStatistics,
    Basic.newBtcdStatistics, client_GetInfo, client_GetNetTotals,
    client_GetBestBlockHash, client_GetBlockHeader, round_trip.
  cbn [Extended.client Basic.client].
  repeat next_reply; flatten_effects;
    (split; [intros H; try discriminate H; reflexivity|]);
    intros H; try discriminate H; repeat split.
Qed.

(** X4, run: the node of Scenarios A and C, scraped by both variants, and
    the refusing node of Scenario B. *)
Lemma Extended_Collect_extends_Basic_Collect_witness :
  let new_x := new_effects fresh
                 (snd (Extended.Collect (Extended.NewExporter (scripted node_ok)) fresh)) in
  let new_b := new_effects fresh
                 (snd (Basic.Collect (Basic.NewExporter (scripted node_ok)) fresh)) in
  (some_query_failed new_x = false /\
   sent new_b = firstn 6 (sent new_x)) /\
  (some_query_failed
     (new_effects fresh
        (snd (Basic.Collect (Basic.NewExporter (scripted node_refused)) fresh)))
   = true /\
   Extended.Collect (Extended.NewExporter (scripted node_refused)) fresh =
     Basic.Collect (Basic.NewExporter (scripted node_refused)) fresh).
Proof.
  intros new_x new_b. split.
  - split; [reflexivity|].
    apply (proj2 (Extended_Collect_extends_Basic_Collect nat (scripted node_ok) fresh)).
    reflexivity.
  - split; [reflexivity|].
    apply (proj1 (Extended_Collect_extends_Basic_Collect nat (scripted node_refused) fresh)).
    reflexivity.
Defined.

(** X5. From the replies to the samples: when the four queries succeed with
    [int32] block and connection counts and with byte counters and a block
    time below 2^53, each sample denotes the number the node reported, sent
    bytes under [btcd_sent_bytes] and received bytes under
    [btcd_received_bytes], and the difficulty is passed on bit for bit.  The
    basic variant does the same with its two queries. *)
Theorem Collect_samples_are_the_replies :
  (forall (Node : Type) (e : Extended.Exporter Node) (w : World Node)
          info n1 totals n2 hash n3 header n4,
     GetInfo (Extended.client e) (node w) = (Ok info, n1) ->
     GetNetTotals (Extended.client e) n1 = (Ok totals, n2) ->
     GetBestBlockHash (Extended.client e) n2 = (Ok hash, n3) ->
     GetBlockHeader (Extended.client e) hash n3 = (Ok header, n4) ->
     - 2 ^ 31 <= Blocks info < 2 ^ 31 ->
     - 2 ^ 31 <= Connections info < 2 ^ 31 ->
     0 <= TotalBytesSent totals < 2 ^ 53 ->
     0 <= TotalBytesRecv totals < 2 ^ 53 ->
     - 2 ^ 53 < Unix (Timestamp header) < 2 ^ 53 ->
     let new := new_effects w (snd (Extended.Collect e w)) in
     map (fun m => (fqName (desc m), float64_to_Z (value m))) (sent new) =
       [("btcd_up", Some 1);
        ("btcd_blocks_total", Some (Blocks info));
        ("btcd_peers", Some (Connections info));
        ("btcd_difficulty", float64_to_Z (Difficulty info));
        ("btcd_sent_bytes", Some (TotalBytesSent totals));
        ("btcd_received_bytes", Some (TotalBytesRecv totals));
        ("btcd_latest_block_timestamp", Some (Unix (Timestamp header)))] /\
     nth_error (map value (sent new)) 3 = Some (Difficulty info))
  /\
  (forall (Node : Type) (e : Basic.Exporter Node) (w : World Node)
          info n1 totals n2,
     GetInfo (Basic.client e) (node w) = (Ok info, n1) ->
     GetNetTotals (Basic.client e) n1 = (Ok totals, n2) ->
     - 2 ^ 31 <= Blocks info < 2 ^ 31 ->
     - 2 ^ 31 <= Connections info < 2 ^ 31 ->
     0 <= TotalBytesSent totals < 2 ^ 53 ->
     0 <= TotalBytesRecv totals < 2 ^ 53 ->
     let new := new_effects w (snd (Basic.Collect e w)) in
     map (fun m => (fqName (desc m), float64_to_Z (value m))) (sent new) =
       [("btcd_up", Some 1);
        ("btcd_blocks_total", Some (Blocks info));
        ("btcd_peers", Some (Connections info));
        ("btcd_difficulty", float64_to_Z (Difficulty info));
        ("btcd_sent_bytes", Some (TotalBytesSent totals));
        ("btcd_received_bytes", Some (TotalBytesRecv totals))] /\
     nth_error (map value (sent new)) 3 = Some (Difficulty info)).
Proof.
  assert (P31 : 2 ^ 31 < 2 ^ 53) by reflexivity.
  assert (P53 : 2 ^ 53 < 2 ^ 63) by reflexivity.
  split.
  - intros Node e w info n1 totals n2 hash n3 header n4
           Hinfo Htotals Hhash Hheader Hb Hc Hs Hr Ht new.
    subst new. run_extended. split; [|reflexivity].
    cbn [map sent flat_map app desc value].
    rewrite !int_small by lia.
    rewrite !float64_of_int_exact by lia.
    reflexivity.
  - intros Node e w info n1 totals n2 Hinfo Htotals Hb Hc Hs Hr new.
    subst new. run_basic. split; [|reflexivity].
    cbn [map sent flat_map app desc value].
    rewrite !int_small by lia.
    rewrite !float64_of_int_exact by lia.
    reflexivity.
Qed.

(** X5, run: Scenario C. *)
Lemma Collect_samples_are_the_replies_witness :
  let e := Extended.NewExporter (scripted node_ok) in
  let new := new_effects fresh (snd (Extended.Collect e fresh)) in
  (- 2 ^ 31 <= 800000 < 2 ^ 31 /\ - 2 ^ 31 <= 8 < 2 ^ 31 /\
   0 <= 1000000 < 2 ^ 53 /\ 0 <= 2000000 < 2 ^ 53 /\
   - 2 ^ 53 < 1700000000 < 2 ^ 53) /\
  map (fun m => (fqName (desc m), float64_to_Z (value m))) (sent new) =
    [("btcd_up", Some 1);
     ("btcd_blocks_total", Some 800000);
     ("btcd_peers", Some 8);
     ("btcd_difficulty", Some 55000000000000);
     ("btcd_sent_bytes", Some 1000000);
     ("btcd_received_bytes", Some 2000000);
     ("btcd_latest_block_timestamp", Some 1700000000)].
Proof.
  intros e new.
  assert (H1 : - 2 ^ 31 <= 800000 < 2 ^ 31) by (split; reflexivity || discriminate).
  assert (H2 : - 2 ^ 31 <= 8 < 2 ^ 31) by (split; reflexivity || discriminate).
  assert (H3 : 0 <= 1000000 < 2 ^ 53) by (split; reflexivity || discriminate).
  assert (H4 : 0 <= 2000000 < 2 ^ 53) by (split; reflexivity || discriminate).
  assert (H5 : - 2 ^ 53 < 1700000000 < 2 ^ 53) by (split; reflexivity).
  split; [repeat split; first [apply H1 | apply H2 | apply H3 | apply H4 | apply H5]|].
  exact (proj1 (proj1 Collect_samples_are_the_replies nat e fresh
           {| Blocks := 800000; Connections := 8;
              Difficulty := difficulty_55e12 |} 1%nat
           {| TotalBytesRecv := 2000000; TotalBytesSent := 1000000 |} 2%nat
           hash_a 3%nat {| Timestamp := {| Unix := 1700000000 |} |} 4%nat
           eq_refl eq_refl eq_refl eq_refl H1 H2 H3 H4 H5)).
Defined.

(** X6. A [uint64] byte counter of 2^63 or more does not fit [int]: the
    snapshot holds it reduced by 2^64, a negative number; a counter below
    2^63 is held as it is. *)
Theorem GetAllStatistics_byte_counter_wraps :
  (forall (Node : Type) (e : Extended.Exporter Node) (w : World Node)
          info n1 totals n2 hash n3 header n4,
     GetInfo (Extended.client e) (node w) = (Ok info, n1) ->
     GetNetTotals (Extended.client e) n1 = (Ok totals, n2) ->
     GetBestBlockHash (Extended.client e) n2 = (Ok hash, n3) ->
     GetBlockHeader (Extended.client e) hash n3 = (Ok header, n4) ->
     0 <= TotalBytesSent totals < 2 ^ 64 ->
     exists st,
       fst (fst (Extended.GetAllStatistics e w)) = Some st /\
       Extended.BtcdStatistics.bytesSent st =
         (if TotalBytesSent totals <? 2 ^ 63
          then TotalBytesSent totals
          else TotalBytesSent totals - 2 ^ 64) /\
       (2 ^ 63 <= TotalBytesSent totals ->
        Extended.BtcdStatistics.bytesSent st < 0))
  /\
  (forall (Node : Type) (e : Basic.Exporter Node) (w : World Node)
          info n1 totals n2,
     GetInfo (Basic.client e) (node w) = (Ok info, n1) ->
     GetNetTotals (Basic.client e) n1 = (Ok totals, n2) ->
     0 <= TotalBytesSent totals < 2 ^ 64 ->
     exists st,
       fst (fst (Basic.GetAllStatistics e w)) = Some st /\
       Basic.BtcdStatistics.bytesSent st =
         (if TotalBytesSent totals <? 2 ^ 63
          then TotalBytesSent totals
          else TotalBytesSent totals - 2 ^ 64) /\
       (2 ^ 63 <= TotalBytesSent totals ->
        Basic.BtcdStatistics.bytesSent st < 0)).
Proof.
  assert (P : 2 ^ 64 = 2 * 2 ^ 63) by reflexivity.
  assert (wrap : forall x, 0 <= x < 2 ^ 64 ->
            int x = (if x <? 2 ^ 63 then x else x - 2 ^ 64) /\
            (2 ^ 63 <= x -> int x < 0)).
  { intros x Hx. destruct (x <? 2 ^ 63) eqn:E.
    - apply Z.ltb_lt in E. rewrite int_small by lia. split; [reflexivity|lia].
    - apply Z.ltb_ge in E. rewrite int_wrap_high by lia. split; [reflexivity|lia]. }
  split.
  - intros Node e w info n1 totals n2 hash n3 header n4
           Hinfo Htotals Hhash Hheader Hs.
    run_extended. eexists. split; [reflexivity|]. cbn. exact (wrap _ Hs).
  - intros Node e w info n1 totals n2 Hinfo Htotals Hs.
    run_basic. eexists. split; [reflexivity|]. cbn. exact (wrap _ Hs).
Qed.

(** X6, run: a counter of exactly 2^63 becomes - 2^63. *)
Lemma GetAllStatistics_byte_counter_wraps_witness :
  let e := Basic.NewExporter (scripted node_huge_counter) in
  0 <= 9223372036854775808 < 2 ^ 64 /\
  exists st,
    fst (fst (Basic.GetAllStatistics e fresh)) = Some st /\
    Basic.BtcdStatistics.bytesSent st = - 9223372036854775808.
Proof.
  intros e.
  assert (H : 0 <= 9223372036854775808 < 2 ^ 64)
    by (split; [discriminate | reflexivity]).
  split; [exact H|].
  destruct (proj2 GetAllStatistics_byte_counter_wraps nat e fresh
              {| Blocks := 800000; Connections := 8;
                 Difficulty := difficulty_55e12 |} 1%nat
              {| TotalBytesRecv := 2000000;
                 TotalBytesSent := 9223372036854775808 |} 2%nat
              eq_refl eq_refl H) as (st & Hst & Hv & _).
  exists st. split; [exact Hst | exact Hv].
Defined.

(** X7. When [GetAllStatistics] returns an error, it is the error of the
    last query made, every query before it succeeded, and the snapshot is
    nil. *)
Theorem GetAllStatistics_error_is_of_last_query :
  (forall (Node : Type) (e : Extended.Exporter Node) (w : World Node) err,
     snd (fst (Extended.GetAllStatistics e w)) = Some err ->
     fst (fst (Extended.GetAllStatistics e w)) = None /\
     exists qs c,
       queries (new_effects w (snd (Extended.GetAllStatistics e w))) =
         qs ++ [(c, Some err)] /\
       Forall (fun q => snd q = None) qs)
  /\
  (forall (Node : Type) (e : Basic.Exporter Node) (w : World Node) err,
     snd (fst (Basic.GetAllStatistics e w)) = Some err ->
     fst (fst (Basic.GetAllStatistics e w)) = None /\
     exists qs c,
       queries (new_effects w (snd (Basic.GetAllStatistics e w))) =
         qs ++ [(c, Some err)] /\
       Forall (fun q => snd q = None) qs).
Proof.
  split; intros Node e w err0.
  - run_extended; intros H; try discriminate H; injection H as ->;
      (split; [reflexivity|]).
    + exists [(CallGetInfo, None); (CallGetNetTotals, None);
              (CallGetBestBlockHash, None)]; eexists.
      split; [reflexivity | repeat constructor].
    + exists [(CallGetInfo, None); (CallGetNetTotals, None)]; eexists.
      split; [reflexivity | repeat constructor].
    + exists [(CallGetInfo, None)]; eexists.
      split; [reflexivity | repeat constructor].
    + exists []; eexists. split; [reflexivity | constructor].
  - run_basic; intros H; try discriminate H; injection H as ->;
      (split; [reflexivity|]).
    + exists [(CallGetInfo, None)]; eexists.
      split; [reflexivity | repeat constructor].
    + exists []; eexists. split; [reflexivity | constructor].
Qed.

(** X7, run: the header of the best block is not found, after three
    successful queries. *)
Lemma GetAllStatistics_error_is_of_last_query_witness :
  let e := Extended.NewExporter (scripted node_no_header) in
  snd (fst (Extended.GetAllStatistics e fresh)) = Some "block not found" /\
  exists qs c,
    queries (new_effects fresh (snd (Extended.GetAllStatistics e fresh))) =
      qs ++ [(c, Some "block not found")] /\
    Forall (fun q => snd q = None) qs.
Proof.
  intros e. split; [reflexivity|].
  apply (proj1 GetAllStatistics_error_is_of_last_query nat e fresh).
  reflexivity.
Defined.

(** * Further properties of startup *)

Lemma required_variables_set (os : Process) :
  Getenv os "BTCD_EXPORTER_HOST" <> "" ->
  Getenv os "BTCD_EXPORTER_USERNAME" <> "" ->
  Getenv os "BTCD_EXPORTER_PASSWORD" <> "" ->
  String.eqb (Getenv os "BTCD_EXPORTER_HOST") ""
  || String.eqb (Getenv os "BTCD_EXPORTER_USERNAME") ""
  || String.eqb (Getenv os "BTCD_EXPORTER_PASSWORD") "" = false.
Proof.
  intros Hh Hu Hp. apply String.eqb_neq in Hh, Hu, Hp.
  rewrite Hh, Hu, Hp. reflexivity.
Qed.

(** X8. [main] ends in one of two ways only: it serves, its last action
    being to listen on [:9101]; or it exits with status 1, its last action
    being a line of the log. *)
Theorem main_serves_or_exits_1_with_a_log_line :
  forall os : Process,
    ((snd (Extended.main os) = Serving /\
      exists done, fst (Extended.main os) = done ++ [Listen ":9101"]) \/
     (snd (Extended.main os) = Exit 1 /\
      exists done msg, fst (Extended.main os) = done ++ [Log msg]))
    /\
    ((snd (Basic.main os) = Serving /\
      exists done, fst (Basic.main os) = done ++ [Listen ":9101"]) \/
     (snd (Basic.main os) = Exit 1 /\
      exists done msg, fst (Basic.main os) = done ++ [Log msg])).
Proof.
  intros os. split.
  - unfold Extended.main, log_Fatal.
    destruct (String.eqb (Getenv os "BTCD_EXPORTER_HOST") ""
              || String.eqb (Getenv os "BTCD_EXPORTER_USERNAME") ""
              || String.eqb (Getenv os "BTCD_EXPORTER_PASSWORD") "");
      [right; split; [reflexivity | do 2 eexists; reflexivity]|].
    destruct (String.eqb (Getenv os "BTCD_EXPORTER_CERT_PATH") "");
      match goal with
      | |- context [ReadFile os ?p] => destruct (ReadFile os p) as [certs|rerr]
      end;
      try destruct (New os _) as [derr|];
      try destruct (ListenAndServe os _) as [lerr|];
      cbn [fst snd app];
      try (right; split;
           [ reflexivity
           | match goal with
             | |- exists done msg, ?l = _ =>
                 exists (removelast l); eexists; reflexivity
             end ]);
      left; (split; [reflexivity|]);
      match goal with
      | |- exists done, ?l = _ => exists (removelast l); reflexivity
      end.
  - unfold Basic.main, log_Fatal.
    destruct (String.eqb (Getenv os "BTCD_EXPORTER_HOST") ""
              || String.eqb (Getenv os "BTCD_EXPORTER_USERNAME") ""
              || String.eqb (Getenv os "BTCD_EXPORTER_PASSWORD") "");
      [right; split; [reflexivity | do 2 eexists; reflexivity]|].
    destruct (New os _) as [derr|];
      try destruct (ListenAndServe os _) as [lerr|];
      cbn [fst snd app];
      try (right; split;
           [ reflexivity
           | match goal with
             | |- exists done msg, ?l = _ =>
                 exists (removelast l); eexists; reflexivity
             end ]);
      left; (split; [reflexivity|]);
      match goal with
      | |- exists done, ?l = _ => exists (removelast l); reflexivity
      end.
Qed.

(** X9. [main] gets to serve exactly when the three required variables are
    set, the certificate can be read (extended variant), the client is
    created from these and the listener does not fail. *)
Theorem main_serves_iff_startup_succeeds :
  forall os : Process,
    let host := Getenv os "BTCD_EXPORTER_HOST" in
    let username := Getenv os "BTCD_EXPORTER_USERNAME" in
    let password := Getenv os "BTCD_EXPORTER_PASSWORD" in
    let certPath := Getenv os "BTCD_EXPORTER_CERT_PATH" in
    let resolved :=
      if String.eqb certPath ""
      then Join os (AppDataDir os "btcd" false) "rpc.cert"
      else certPath in
    (snd (Extended.main os) = Serving <->
     host <> "" /\ username <> "" /\ password <> "" /\
     exists certs,
       ReadFile os resolved = Ok certs /\
       New os {| Host := host; Endpoint := "ws"; User := username;
                 Pass := password; Certificates := certs |} = None /\
       ListenAndServe os ":9101" = None)
    /\
    (snd (Basic.main os) = Serving <->
     host <> "" /\ username <> "" /\ password <> "" /\
     New os {| Host := host; Endpoint := "ws"; User := username;
               Pass := password; Certificates := [] |} = None /\
     ListenAndServe os ":9101" = None).
Proof.
  intros os host username password certPath resolved.
  subst resolved certPath password username host.
  unfold Extended.main, Basic.main, log_Fatal.
  destruct (String.eqb_spec (Getenv os "BTCD_EXPORTER_HOST") "") as [Eh|Nh];
    [cbn [orb fst snd]; split; split; intros H; try discriminate H;
     destruct H as (H & _); contradiction|].
  destruct (String.eqb_spec (Getenv os "BTCD_EXPORTER_USERNAME") "") as [Eu|Nu];
    [cbn [orb fst snd]; split; split; intros H; try discriminate H;
     destruct H as (_ & H & _); contradiction|].
  destruct (String.eqb_spec (Getenv os "BTCD_EXPORTER_PASSWORD") "") as [Ep|Np];
    [cbn [orb fst snd]; split; split; intros H; try discriminate H;
     destruct H as (_ & _ & H & _); contradiction|].
  cbn [orb]. split.
  - destruct (String.eqb (Getenv os "BTCD_EXPORTER_CERT_PATH") "");
      match goal with
      | |- context [ReadFile os ?p] =>
          destruct (ReadFile os p) as [certs|rerr] eqn:Er
      end;
      try destruct (New os _) as [derr|] eqn:Ed;
      try destruct (ListenAndServe os _) as [lerr|] eqn:El;
      cbn [fst snd];
      (split;
       [ intros H; try discriminate H;
         repeat (split; [assumption|]); eexists; repeat split; eassumption
       | intros (_ & _ & _ & certs' & Hr & Hd & Hl); congruence ]).
  - destruct (New os _) as [derr|] eqn:Ed;
      try destruct (ListenAndServe os _) as [lerr|] eqn:El;
      cbn [fst snd];
      (split;
       [ intros H; try discriminate H; repeat split; assumption
       | intros (_ & _ & _ & Hd & Hl); congruence ]).
Qed.

(** X9, run: the host with a readable certificate serves. *)
Lemma main_serves_iff_startup_succeeds_witness :
  (Getenv host_with_cert "BTCD_EXPORTER_HOST" <> "" /\
   Getenv host_with_cert "BTCD_EXPORTER_USERNAME" <> "" /\
   Getenv host_with_cert "BTCD_EXPORTER_PASSWORD" <> "" /\
   ReadFile host_with_cert "/etc/btcd/rpc.cert" =
     Ok [Byte.x2d; Byte.x2d; Byte.x2d]) /\
  snd (Extended.main host_with_cert) = Serving.
Proof.
  assert (Hh : Getenv host_with_cert "BTCD_EXPORTER_HOST" <> "")
    by discriminate.
  assert (Hu : Getenv host_with_cert "BTCD_EXPORTER_USERNAME" <> "")
    by discriminate.
  assert (Hp : Getenv host_with_cert "BTCD_EXPORTER_PASSWORD" <> "")
    by discriminate.
  split; [repeat split; assumption|].
  apply (proj1 (main_serves_iff_startup_succeeds host_with_cert)).
  repeat (split; [assumption|]).
  exists [Byte.x2d; Byte.x2d; Byte.x2d]. repeat split.
Defined.

(** X10. Whenever [main] gets as far as listening, it has before that, in
    this order, created the client, registered the exporter, installed the
    routes [/metrics] and [/] and announced the port, and nothing else in
    between; the client was created without error from the host, user name
    and password of the environment, endpoint [ws], and the bytes of the
    certificate file (extended) or no certificate (basic).  After listening
    there is at most the line reporting the listener's error. *)
Theorem main_listens_after_client_and_routes :
  forall os : Process,
    let host := Getenv os "BTCD_EXPORTER_HOST" in
    let username := Getenv os "BTCD_EXPORTER_USERNAME" in
    let password := Getenv os "BTCD_EXPORTER_PASSWORD" in
    let certPath := Getenv os "BTCD_EXPORTER_CERT_PATH" in
    let resolved :=
      if String.eqb certPath ""
      then Join os (AppDataDir os "btcd" false) "rpc.cert"
      else certPath in
    (started (Extended.main os) = true ->
     exists pre certs post,
       let cfg := {| Host := host; Endpoint := "ws"; User := username;
                     Pass := password; Certificates := certs |} in
       fst (Extended.main os) =
         pre ++ [Dial cfg; Register; Handle "/metrics"; Handle "/";
                 Log "starting server on port 9101"; Listen ":9101"] ++ post /\
       existsb is_Dial pre = false /\ existsb is_Listen pre = false /\
       ReadFile os resolved = Ok certs /\
       New os cfg = None /\
       match ListenAndServe os ":9101" with
       | Some err => post = [Log err]
       | None => post = []
       end)
    /\
    (started (Basic.main os) = true ->
     exists post,
       let cfg := {| Host := host; Endpoint := "ws"; User := username;
                     Pass := password; Certificates := [] |} in
       fst (Basic.main os) =
         [Dial cfg; Register; Handle "/metrics"; Handle "/";
          Log "starting server on 0.0.0.0:9101"; Listen ":9101"] ++ post /\
       New os cfg = None /\
       match ListenAndServe os ":9101" with
       | Some err => post = [Log err]
       | None => post = []
       end).
Proof.
  intros os host username password certPath resolved.
  subst resolved certPath password username host.
  unfold started, Extended.main, Basic.main, log_Fatal.
  destruct (String.eqb (Getenv os "BTCD_EXPORTER_HOST") ""
            || String.eqb (Getenv os "BTCD_EXPORTER_USERNAME") ""
            || String.eqb (Getenv os "BTCD_EXPORTER_PASSWORD") "");
    [split; intros H; discriminate H|].
  split.
  - destruct (String.eqb (Getenv os "BTCD_EXPORTER_CERT_PATH") "");
      match goal with
      | |- context [ReadFile os ?p] =>
          destruct (ReadFile os p) as [certs|rerr] eqn:Er
      end;
      try destruct (New os _) as [derr|] eqn:Ed;
      try destruct (ListenAndServe os _) as [lerr|] eqn:El;
      cbn [fst snd app]; intros H; try discriminate H.
    + eexists [_; _], certs, [_]. repeat split; try exact Ed.
    + eexists [_; _], certs, []. repeat split; try exact Ed.
    + eexists [_], certs, [_]. repeat split; try exact Ed.
    + eexists [_], certs, []. repeat split; try exact Ed.
  - destruct (New os _) as [derr|] eqn:Ed;
      try destruct (ListenAndServe os _) as [lerr|] eqn:El;
      cbn [fst snd app]; intros H; try discriminate H.
    + eexists [_]. repeat split; try exact Ed.
    + eexists []. repeat split; try exact Ed.
Qed.

(** X10, run: the host with a readable certificate, on which the port is
    taken. *)
Lemma main_listens_after_client_and_routes_witness :
  started (Extended.main host_port_taken) = true /\
  exists pre certs post,
    fst (Extended.main host_port_taken) =
      pre ++ [Dial {| Host := "localhost:8334"; Endpoint := "ws";
                      User := "rpcuser"; Pass := "rpcpass";
                      Certificates := certs |};
              Register; Handle "/metrics"; Handle "/";
              Log "starting server on port 9101"; Listen ":9101"] ++ post /\
    ReadFile host_port_taken "/etc/btcd/rpc.cert" = Ok certs /\
    post = [Log "listen tcp :9101: bind: address already in use"].
Proof.
  split; [reflexivity|].
  destruct (proj1 (main_listens_after_client_and_routes host_port_taken)
              eq_refl) as (pre & certs & post & Hacts & _ & _ & Hr & _ & Hl).
  exists pre, certs, post. repeat split; assumption.
Defined.

(** X11. With the required variables set (and the certificate read, in the
    extended variant): when the client cannot be created, [main] logs that
    error last and exits with status 1 without registering the exporter or
    listening; when the client is created and the listener fails, [main]
    logs the listener's error last and exits with status 1. *)
Theorem main_client_or_listener_failure_is_fatal :
  forall os : Process,
    let host := Getenv os "BTCD_EXPORTER_HOST" in
    let username := Getenv os "BTCD_EXPORTER_USERNAME" in
    let password := Getenv os "BTCD_EXPORTER_PASSWORD" in
    let certPath := Getenv os "BTCD_EXPORTER_CERT_PATH" in
    let resolved :=
      if String.eqb certPath ""
      then Join os (AppDataDir os "btcd" false) "rpc.cert"
      else certPath in
    host <> "" -> username <> "" -> password <> "" ->
    (forall certs err,
       ReadFile os resolved = Ok certs ->
       let cfg := {| Host := host; Endpoint := "ws"; User := username;
                     Pass := password; Certificates := certs |} in
       (New os cfg = Some err ->
        snd (Extended.main os) = Exit 1 /\
        last (fst (Extended.main os)) Register = Log err /\
        ~ In Register (fst (Extended.main os)) /\
        started (Extended.main os) = false) /\
       (New os cfg = None -> ListenAndServe os ":9101" = Some err ->
        snd (Extended.main os) = Exit 1 /\
        last (fst (Extended.main os)) Register = Log err))
    /\
    (forall err,
       let cfg := {| Host := host; Endpoint := "ws"; User := username;
                     Pass := password; Certificates := [] |} in
       (New os cfg = Some err ->
        Basic.main os = ([Dial cfg; Log err], Exit 1)) /\
       (New os cfg = None -> ListenAndServe os ":9101" = Some err ->
        snd (Basic.main os) = Exit 1 /\
        last (fst (Basic.main os)) Register = Log err)).
Proof.
  intros os host username password certPath resolved Hh Hu Hp.
  subst resolved certPath password username host.
  pose proof (required_variables_set os Hh Hu Hp) as Hreq.
  unfold started, Extended.main, Basic.main, log_Fatal. rewrite Hreq.
  split.
  - intros certs err.
    destruct (String.eqb (Getenv os "BTCD_EXPORTER_CERT_PATH") "");
      intros Hr; cbv zeta; rewrite Hr; split.
    + intros Hd. rewrite Hd. cbn.
      repeat split; try reflexivity. intros [H|[H|[H|[H|[]]]]]; discriminate H.
    + intros Hd Hl. rewrite Hd, Hl. cbn. split; reflexivity.
    + intros Hd. rewrite Hd. cbn.
      repeat split; try reflexivity. intros [H|[H|[H|[]]]]; discriminate H.
    + intros Hd Hl. rewrite Hd, Hl. cbn. split; reflexivity.
  - intros err; cbv zeta; split.
    + intros Hd. rewrite Hd. reflexivity.
    + intros Hd Hl. rewrite Hd, Hl. cbn. split; reflexivity.
Qed.

(** X11, run: the node refuses the session. *)
Lemma main_client_or_listener_failure_is_fatal_witness :
  (Getenv host_node_down "BTCD_EXPORTER_HOST" <> "" /\
   Getenv host_node_down "BTCD_EXPORTER_USERNAME" <> "" /\
   Getenv host_node_down "BTCD_EXPORTER_PASSWORD" <> "" /\
   ReadFile host_node_down "/etc/btcd/rpc.cert" =
     Ok [Byte.x2d; Byte.x2d; Byte.x2d]) /\
  snd (Extended.main host_node_down) = Exit 1 /\
  last (fst (Extended.main host_node_down)) Register =
    Log "dial tcp 127.0.0.1:8334: connect: connection refused" /\
  started (Extended.main host_node_down) = false.
Proof.
  assert (Hh : Getenv host_node_down "BTCD_EXPORTER_HOST" <> "")
    by discriminate.
  assert (Hu : Getenv host_node_down "BTCD_EXPORTER_USERNAME" <> "")
    by discriminate.
  assert (Hp : Getenv host_node_down "BTCD_EXPORTER_PASSWORD" <> "")
    by discriminate.
  split; [repeat split; assumption|].
  destruct (proj1 (main_client_or_listener_failure_is_fatal
                     host_node_down Hh Hu Hp)
              [Byte.x2d; Byte.x2d; Byte.x2d]
              "dial tcp 127.0.0.1:8334: connect: connection refused"
              eq_refl) as (Hfail & _).
  destruct (Hfail eq_refl) as (Hexit & Hlast & _ & Hstart).
  repeat split; assumption.
Defined.

(** * The header query, whatever its outcome *)

(** X12. In the extended variant, once [getInfo], [getNetTotals] and
    [getBestBlockHash] have succeeded, the fourth and last query is
    [getBlockHeader] for the hash just returned, whether it then succeeds or
    fails, and the node is left as that query left it. *)
Theorem GetBlockHeader_asked_for_returned_hash :
  forall (Node : Type) (e : Extended.Exporter Node) (w : World Node)
         info n1 totals n2 hash n3,
    GetInfo (Extended.client e) (node w) = (Ok info, n1) ->
    GetNetTotals (Extended.client e) n1 = (Ok totals, n2) ->
    GetBestBlockHash (Extended.client e) n2 = (Ok hash, n3) ->
    let reply := GetBlockHeader (Extended.client e) hash n3 in
    let w' := snd (Extended.GetAllStatistics e w) in
    queries (new_effects w w') =
      [(CallGetInfo, None); (CallGetNetTotals, None);
       (CallGetBestBlockHash, None);
       (CallGetBlockHeader hash, failure_of (fst reply))] /\
    node w' = snd reply /\
    snd (fst (Extended.GetAllStatistics e w)) = failure_of (fst reply).
Proof.
  intros Node e w info n1 totals n2 hash n3 Hinfo Htotals Hhash reply w'.
  subst reply w'. run_extended; repeat split.
Qed.

(** X12, run: the best block is [hash_b], of which the node has no
    header. *)
Lemma GetBlockHeader_asked_for_returned_hash_witness :
  let e := Extended.NewExporter (scripted node_no_header) in
  let w' := snd (Extended.GetAllStatistics e fresh) in
  GetBestBlockHash (Extended.client e) 2%nat = (Ok hash_b, 3%nat) /\
  queries (new_effects fresh w') =
    [(CallGetInfo, None); (CallGetNetTotals, None);
     (CallGetBestBlockHash, None);
     (CallGetBlockHeader hash_b, Some "block not found")].
Proof.
  intros e w'. split; [reflexivity|].
  exact (proj1 (GetBlockHeader_asked_for_returned_hash nat e fresh
           {| Blocks := 800000; Connections := 8;
              Difficulty := difficulty_55e12 |} 1%nat
           {| TotalBytesRecv := 2000000; TotalBytesSent := 1000000 |} 2%nat
           hash_b 3%nat eq_refl eq_refl eq_refl)).
Defined.
